(** * FFmpeg command assembly of [video/builder.py]

    A shallow embedding of the [VideoBuilder] class: the constructor, the
    fluent setters and [build_command], followed by the properties of the
    command-assembly and validation logic.

    Python values are modelled as the code sees them: [None], booleans,
    integers, IEEE-754 binary64 floats (the [spec_float] of the Standard
    Library at precision 53), strings, and tuples or lists of those.
    Dictionaries are finite maps with string keys.  A raised exception is
    the [Raise] case of [result]. *)

From Stdlib Require Import ZArith String List DecimalString.
From Stdlib Require Import Floats.SpecFloat.
From stdpp Require Import gmap strings.
Import ListNotations.

(** ** The fragment of the Python runtime the builder relies on *)

Module Py.

(** Scalars: what a dictionary entry, a tuple component or a formatted
    field can hold. *)
Inductive scalar :=
| PyNone
| PyBool (b : bool)
| PyInt (n : Z)
| PyFloat (x : spec_float)
| PyStr (s : string).

(** Any value a caller may pass where a tuple is expected. *)
Inductive object :=
| Atom (a : scalar)
| PyTuple (items : list scalar)
| PyList (items : list scalar).

(** Exceptions, by class and message: the four classes the builder and
    the runtime fragment raise, and [Exception class msg] for one of any
    other class, raised by a collaborator. *)
Inductive exn :=
| ValueError (msg : string)
| TypeError (msg : string)
| OverflowError (msg : string)
| KeyError (key : string)
| Exception (class msg : string).

Inductive result (A : Type) :=
| Ok (a : A)
| Raise (e : exn).
Arguments Ok {A} a.
Arguments Raise {A} e.

#[global] Instance result_ret : MRet result := fun _ a => Ok a.
#[global] Instance result_bind : MBind result := fun _ _ f m =>
  match m with
  | Ok a => f a
  | Raise e => Raise e
  end.

(** [bool(x)]: the truth value [if x:] and [not x] test. *)
Class Truthy (A : Type) := truthy : A -> bool.

#[global] Instance string_truthy : Truthy string := fun s =>
  match s with
  | EmptyString => false
  | String _ _ => true
  end.

#[global] Instance int_truthy : Truthy Z := fun n => negb (Z.eqb n 0).

(** A float is false exactly when it is a zero of either sign; a NaN is
    true. *)
#[global] Instance float_truthy : Truthy spec_float := fun x =>
  match x with
  | S754_zero _ => false
  | _ => true
  end.

#[global] Instance scalar_truthy : Truthy scalar := fun a =>
  match a with
  | PyNone => false
  | PyBool b => b
  | PyInt n => truthy n
  | PyFloat x => truthy x
  | PyStr s => truthy s
  end.

(** [None] or a value. *)
#[global] Instance option_truthy {A} `{Truthy A} : Truthy (option A) := fun o =>
  match o with
  | None => false
  | Some a => truthy a
  end.

#[global] Instance list_truthy {A} : Truthy (list A) := fun l =>
  match l with
  | [] => false
  | _ :: _ => true
  end.

(** A dictionary is false exactly when it has no entry. *)
#[global] Instance dict_truthy {V} : Truthy (gmap string V) := fun d =>
  truthy (map_to_list d).

(** [d.get(key)]: the entry, or [None]. *)
Definition dict_get (d : gmap string scalar) (key : string) : scalar :=
  default PyNone (d !! key).

(** [d.get(key, fallback)]. *)
Definition dict_get_default (d : gmap string scalar) (key : string)
    (fallback : scalar) : scalar :=
  default fallback (d !! key).

(** [d[key]] on a dictionary literal with string values, kept in the order
    it is written. *)
Fixpoint getitem (d : list (string * string)) (key : string) : result string :=
  match d with
  | [] => Raise (KeyError key)
  | (k, v) :: rest => if String.eqb k key then Ok v else getitem rest key
  end.

(** [x or {}] on an optional dictionary argument. *)
Definition or_empty {V} (d : option (gmap string V)) : gmap string V :=
  match d with
  | Some m => if truthy m then m else ∅
  | None => ∅
  end.

(** [sep.join(parts)]. *)
Definition join (sep : string) (parts : list string) : string :=
  String.concat sep parts.

(** [str(n)] for an integer: decimal digits with a leading minus sign for
    negative numbers. *)
Definition str_int (n : Z) : string := NilZero.string_of_int (Z.to_int n).

(** *** binary64 arithmetic *)

Definition prec : Z := 53.
Definition emax : Z := 1024.

(** The float an integer operand is converted to before a mixed
    operation. *)
Definition float_of_int (n : Z) : spec_float :=
  binary_normalize prec emax n 0 false.

(** [x * n] for a float (or [None]) [x] and an integer [n]. *)
Definition mul_int (x : option spec_float) (n : Z) : result spec_float :=
  match x with
  | Some x => Ok (SFmul prec emax x (float_of_int n))
  | None => Raise (TypeError "unsupported operand type(s) for *: 'NoneType' and 'int'")
  end.

(** [int(x)]: truncation toward zero; infinities and NaN raise. *)
Definition int_of_float (x : spec_float) : result Z :=
  match x with
  | S754_zero _ => Ok 0%Z
  | S754_finite s m e => Ok (cond_Zopp s (Z.shiftl (Z.pos m) e))
  | S754_infinity _ => Raise (OverflowError "cannot convert float infinity to integer")
  | S754_nan => Raise (ValueError "cannot convert float NaN to integer")
  end.

(** The mathematical floor of the number a finite float denotes,
    [(-1)^s * m * 2^e]; undefined on infinities and NaN. *)
Definition floor (x : spec_float) : option Z :=
  match x with
  | S754_zero _ => Some 0%Z
  | S754_finite s m e =>
      Some (if (0 <=? e)%Z
            then (cond_Zopp s (Z.pos m) * 2 ^ e)%Z
            else (cond_Zopp s (Z.pos m) / 2 ^ (- e))%Z)
  | _ => None
  end.

(** [0 < x] as IEEE comparison decides it. *)
Definition positive_float (x : spec_float) : bool :=
  SFltb (S754_zero false) x.

(** The float is a zero or a finite number. *)
Definition finite (x : spec_float) : bool :=
  match x with
  | S754_zero _ | S754_finite _ _ _ => true
  | _ => false
  end.

End Py.
Import Py.

(** ** The builder *)

(** Modelled from the spec: the media inspector ([video.media.MediaUtils],
    which is not among the sources at hand).  [get_audio_info] answers with
    a record whose [duration] is a float or absent, and the answer is
    a fixed function of the path.  A query that raises instead of
    answering is accounted for where the method calls the inspector, by
    [query_fails] of [call_get_audio_info]. *)
Record media_info := { duration : option spec_float }.
Record MediaUtils := { get_audio_info : string -> media_info }.

(** [self.background]: one of the two dictionaries the setters build,
    [{"type": "image", "file": .., "ken_burns": ..}] and
    [{"type": "video", "file": ..}]. *)
Inductive Background :=
| Image (file : string) (ken_burns : gmap string scalar)
| Video (file : string).

Record VideoBuilder := {
  width : scalar;
  height : scalar;
  ffmpeg_path : string;
  background : option Background;
  audio_file : option string;
  captions : option (gmap string scalar);
  output_path : string;
  media_utils : option MediaUtils
}.

Definition is_image (bg : Background) : bool :=
  match bg with
  | Image _ _ => true
  | Video _ => false
  end.

Definition is_video (bg : Background) : bool := negb (is_image bg).

(** [x is None]. *)
Definition is_none {A} (x : option A) : bool :=
  match x with
  | None => true
  | Some _ => false
  end.

Definition msg_dimensions : string := "Dimensions must be a tuple of (width, height).".

(** [VideoBuilder(dimensions, ffmpeg_path)]: anything but a tuple of two
    components raises; the two components are stored as they come. *)
Definition init (dimensions : object) (ffmpeg_path : string) : result VideoBuilder :=
  match dimensions with
  | PyTuple [w; h] =>
      Ok {| width := w; height := h; ffmpeg_path := ffmpeg_path;
            background := None; audio_file := None; captions := None;
            output_path := "output.mp4"; media_utils := None |}
  | _ => Raise (ValueError msg_dimensions)
  end.

(** The setters assign one field and hand the builder back. *)
Definition set_media_utils (mu : MediaUtils) (self : VideoBuilder) : VideoBuilder :=
  {| width := width self; height := height self; ffmpeg_path := ffmpeg_path self;
     background := background self; audio_file := audio_file self;
     captions := captions self; output_path := output_path self;
     media_utils := Some mu |}.

Definition set_background (bg : Background) (self : VideoBuilder) : VideoBuilder :=
  {| width := width self; height := height self; ffmpeg_path := ffmpeg_path self;
     background := Some bg; audio_file := audio_file self;
     captions := captions self; output_path := output_path self;
     media_utils := media_utils self |}.

Definition set_background_image (file_path : string)
    (ken_burns_config : option (gmap string scalar)) (self : VideoBuilder) : VideoBuilder :=
  set_background (Image file_path (or_empty ken_burns_config)) self.

Definition set_background_video (file_path : string) (self : VideoBuilder) : VideoBuilder :=
  set_background (Video file_path) self.

Definition set_audio (file_path : string) (self : VideoBuilder) : VideoBuilder :=
  {| width := width self; height := height self; ffmpeg_path := ffmpeg_path self;
     background := background self; audio_file := Some file_path;
     captions := captions self; output_path := output_path self;
     media_utils := media_utils self |}.

(** [{"file": file_path, **(config or {})}]: the entry for ["file"] is
    written first and every entry of [config] is written over it. *)
Definition set_captions (file_path : scalar) (config : option (gmap string scalar))
    (self : VideoBuilder) : VideoBuilder :=
  {| width := width self; height := height self; ffmpeg_path := ffmpeg_path self;
     background := background self; audio_file := audio_file self;
     captions := Some (or_empty config ∪ {[ "file" := file_path ]});
     output_path := output_path self;
     media_utils := media_utils self |}.

Definition set_output_path (path : string) (self : VideoBuilder) : VideoBuilder :=
  {| width := width self; height := height self; ffmpeg_path := ffmpeg_path self;
     background := background self; audio_file := audio_file self;
     captions := captions self; output_path := path;
     media_utils := media_utils self |}.

(** The literal [0.001], the nearest binary64 number. *)
Definition default_zoom_factor : spec_float :=
  S754_finite false 4611686018427388 (-62).

(** The messages of the exceptions [build_command] raises itself. *)
Definition msg_background : string := "Background must be set (image or video).".
Definition msg_nothing : string :=
  "At least one of audio_file, or captions must be provided.".
Definition msg_image_audio : string :=
  "Audio file must be provided if background is an image.".
Definition msg_video_audio : string :=
  "Audio file or captions must be provided if background is a video.".
Definition msg_media_manager : string :=
  "Media manager must be set to determine audio duration.".
Definition msg_duration : string := "Could not determine audio duration".

Section Assembly.

(** [str(x)] on a float is left to the runtime: the shortest decimal
    string that reads back as the same float. *)
Variable float_str : spec_float -> string.

(** [str(x)], which is also what an f-string field [{x}] expands to. *)
Definition py_str (a : scalar) : string :=
  match a with
  | PyNone => "None"
  | PyBool true => "True"
  | PyBool false => "False"
  | PyInt n => str_int n
  | PyFloat x => float_str x
  | PyStr s => s
  end.

(** [str(audio_duration)], where [audio_duration] is a float or [None]. *)
Definition str_duration (d : option spec_float) : string :=
  py_str (from_option PyFloat PyNone d).

(** The dictionary of pan/zoom presets, each an f-string over the zoom
    rate. *)
Definition zoom_expressions (zoom_factor : scalar) : list (string * string) :=
  [ ("zoom-to-top",
     "z='zoom+" +:+ py_str zoom_factor +:+ "':x=iw/2-(iw/zoom/2):y=0");
    ("zoom-to-center",
     "z='zoom+" +:+ py_str zoom_factor +:+ "':x=iw/2-(iw/zoom/2):y=ih/2-(ih/zoom/2)");
    ("zoom-to-top-left",
     "z='zoom+" +:+ py_str zoom_factor +:+ "':x=0:y=0") ].

(** [build_command]: validation, audio duration, background input and
    filter stage, audio input, caption stage, then the argument list. *)
Definition build_command (self : VideoBuilder) : result (list string) :=
  match background self with
  | None => Raise (ValueError msg_background)
  | Some bg =>
  if negb (truthy (audio_file self)) && negb (truthy (captions self)) then
    Raise (ValueError msg_nothing)
  else if is_image bg && negb (truthy (audio_file self)) then
    Raise (ValueError msg_image_audio)
  else if is_video bg && negb (truthy (audio_file self)) && is_none (captions self) then
    Raise (ValueError msg_video_audio)
  else
  audio_duration ←
    (if truthy (audio_file self) then
       match media_utils self with
       | None => Raise (ValueError msg_media_manager)
       | Some mu =>
           let media_info := get_audio_info mu (default EmptyString (audio_file self)) in
           let audio_duration := duration media_info in
           if negb (truthy audio_duration) then Raise (ValueError msg_duration)
           else Ok audio_duration
       end
     else Ok None);
  let cmd := [ffmpeg_path self; "-y"] in
  let filter_parts := [] in
  let input_index := 0%Z in
  '(cmd, filter_parts) ←
    match bg with
    | Image file ken_burns_config =>
        let cmd := cmd ++ ["-loop"; "1"; "-t"; str_duration audio_duration; "-i"; file] in
        let zoom_factor :=
          dict_get_default ken_burns_config "zoom_factor" (PyFloat default_zoom_factor) in
        zoom_expr ← getitem (zoom_expressions zoom_factor) "zoom-to-top-left";
        let fps := 25%Z in
        frames ← mul_int audio_duration fps;
        duration_frames ← int_of_float frames;
        let zoompan_d := (duration_frames + 1)%Z in
        Ok (cmd,
            filter_parts ++
            [ "[" +:+ str_int input_index +:+ "]scale=" +:+ py_str (width self)
              +:+ ":-2,setsar=1:1,"
              +:+ "crop=" +:+ py_str (width self) +:+ ":" +:+ py_str (height self) +:+ ","
              +:+ "zoompan=" +:+ zoom_expr +:+ ":d=" +:+ str_int zoompan_d
              +:+ ":s=" +:+ py_str (width self) +:+ "x" +:+ py_str (height self)
              +:+ ":fps=" +:+ str_int fps +:+ "[bg]" ])
    | Video file =>
        let cmd :=
          if truthy audio_duration
          then cmd ++ ["-stream_loop"; "-1"; "-t"; str_duration audio_duration; "-i"; file]
          else cmd ++ ["-i"; file] in
        Ok (cmd,
            filter_parts ++
            [ "[" +:+ str_int input_index +:+ "]scale=" +:+ py_str (width self)
              +:+ ":" +:+ py_str (height self) +:+ "[bg]" ])
    end;
  let input_index := (input_index + 1)%Z in
  let current_video := "[bg]" in
  let '(cmd, audio_input_index, input_index) :=
    if truthy (audio_file self)
    then (cmd ++ ["-i"; default EmptyString (audio_file self)], Some input_index, (input_index + 1)%Z)
    else (cmd, None, input_index) in
  let '(filter_parts, current_video) :=
    if truthy (captions self) then
      let subtitle_file := dict_get (default ∅ (captions self)) "file" in
      if truthy subtitle_file
      then (filter_parts ++ [current_video +:+ "subtitles=" +:+ py_str subtitle_file +:+ "[v]"],
            "[v]")
      else (filter_parts, current_video)
    else
      if String.eqb current_video "[bg]"
      then (filter_parts ++ ["[bg]copy[v]"], "[v]")
      else (filter_parts, current_video) in
  let cmd :=
    if truthy filter_parts
    then cmd ++ ["-filter_complex"; join ";" filter_parts]
    else cmd in
  let cmd := cmd ++ ["-map"; current_video] in
  let cmd :=
    match audio_input_index with
    | Some i => cmd ++ ["-map"; str_int i +:+ ":a"]
    | None => cmd
    end in
  let cmd := cmd ++ ["-c:v"; "libx264"; "-preset"; "ultrafast"] in
  let cmd := cmd ++ ["-crf"; "23"; "-pix_fmt"; "yuv420p"] in
  let cmd :=
    if truthy (audio_file self) then
      let cmd := cmd ++ ["-c:a"; "aac"; "-b:a"; "192k"] in
      if truthy audio_duration
      then cmd ++ ["-t"; str_duration audio_duration]
      else cmd
    else cmd in
  Ok (cmd ++ [output_path self])
  end.

(** *** The passes of [build_command]

    The same code cut at its comment lines, one definition per pass;
    [build_command_passes] below proves that chaining them is the method.
    They serve the proofs only. *)

(** The four checks at the head of the method. *)
Definition validate (self : VideoBuilder) : result Background :=
  match background self with
  | None => Raise (ValueError msg_background)
  | Some bg =>
      if negb (truthy (audio_file self)) && negb (truthy (captions self)) then
        Raise (ValueError msg_nothing)
      else if is_image bg && negb (truthy (audio_file self)) then
        Raise (ValueError msg_image_audio)
      else if is_video bg && negb (truthy (audio_file self)) && is_none (captions self) then
        Raise (ValueError msg_video_audio)
      else Ok bg
  end.

(** "Get audio duration if audio file is provided". *)
Definition audio_duration (self : VideoBuilder) : result (option spec_float) :=
  if truthy (audio_file self) then
    match media_utils self with
    | None => Raise (ValueError msg_media_manager)
    | Some mu =>
        let d := duration (get_audio_info mu (default EmptyString (audio_file self))) in
        if negb (truthy d) then Raise (ValueError msg_duration) else Ok d
    end
  else Ok None.

(** The [zoom-to-top-left] expression for a zoom rate. *)
Definition zoom_to_top_left (zoom_factor : scalar) : string :=
  "z='zoom+" +:+ py_str zoom_factor +:+ "':x=0:y=0".

(** The image filter stage for a zoom expression and a zoompan duration. *)
Definition image_stage (self : VideoBuilder) (zoom_expr : string) (zoompan_d : Z) : string :=
  "[0]scale=" +:+ py_str (width self) +:+ ":-2,setsar=1:1,crop="
  +:+ py_str (width self) +:+ ":" +:+ py_str (height self)
  +:+ ",zoompan=" +:+ zoom_expr +:+ ":d=" +:+ str_int zoompan_d
  +:+ ":s=" +:+ py_str (width self) +:+ "x" +:+ py_str (height self) +:+ ":fps=25[bg]".

(** The video filter stage. *)
Definition video_stage (self : VideoBuilder) : string :=
  "[0]scale=" +:+ py_str (width self) +:+ ":" +:+ py_str (height self) +:+ "[bg]".

(** The zoom rate of a pan/zoom configuration. *)
Definition zoom_rate (ken_burns_config : gmap string scalar) : scalar :=
  dict_get_default ken_burns_config "zoom_factor" (PyFloat default_zoom_factor).

(** "Add background input": the input declaration and the filter stage. *)
Definition background_part (self : VideoBuilder) (bg : Background)
    (d : option spec_float) : result (list string * string) :=
  match bg with
  | Image file ken_burns_config =>
      frames ← mul_int d 25;
      duration_frames ← int_of_float frames;
      Ok (["-loop"; "1"; "-t"; str_duration d; "-i"; file],
          image_stage self (zoom_to_top_left (zoom_rate ken_burns_config))
            (duration_frames + 1))
  | Video file =>
      Ok (if truthy d
          then ["-stream_loop"; "-1"; "-t"; str_duration d; "-i"; file]
          else ["-i"; file],
          video_stage self)
  end.

(** "Add subtitles or caption images if provided": the stages after the
    background stage and the label of the final video stream. *)
Definition caption_part (self : VideoBuilder) : list string * string :=
  if truthy (captions self) then
    let subtitle_file := dict_get (default ∅ (captions self)) "file" in
    if truthy subtitle_file
    then (["[bg]subtitles=" +:+ py_str subtitle_file +:+ "[v]"], "[v]")
    else ([], "[bg]")
  else (["[bg]copy[v]"], "[v]").

(** The argument list, from the inputs, the filter stages and the label. *)
Definition sequence (self : VideoBuilder) (d : option spec_float)
    (inputs stages : list string) (label : string) : list string :=
  [ffmpeg_path self; "-y"] ++ inputs
  ++ (if truthy (audio_file self) then ["-i"; default EmptyString (audio_file self)] else [])
  ++ ["-filter_complex"; join ";" stages; "-map"; label]
  ++ (if truthy (audio_file self) then ["-map"; "1:a"] else [])
  ++ ["-c:v"; "libx264"; "-preset"; "ultrafast"; "-crf"; "23"; "-pix_fmt"; "yuv420p"]
  ++ (if truthy (audio_file self)
      then ["-c:a"; "aac"; "-b:a"; "192k"]
           ++ (if truthy d then ["-t"; str_duration d] else [])
      else [])
  ++ [output_path self].

End Assembly.

(** ** The runtime's float formatting

    [str(x)] for a float, as CPython prints it: the shortest digit string
    that reads back as the same binary64 number, laid out in positional
    notation when the decimal point falls within sixteen digits and in
    exponent notation otherwise. *)

Module FloatStr.

Local Open Scope Z_scope.

(** [a * 2^i * 10^j] against [b * 2^k * 10^l], exponents of either sign. *)
Definition scaled_compare (a i j b k l : Z) : comparison :=
  let p2 := Z.min i k in
  let p10 := Z.min j l in
  (a * 2 ^ (i - p2) * 10 ^ (j - p10) ?= b * 2 ^ (k - p2) * 10 ^ (l - p10)).

(** The least [p] among [g], [g+1], .. with [m * 2^e < 10^p]. *)
Fixpoint decimal_point_from (fuel : nat) (m e g : Z) : Z :=
  match fuel with
  | O => g
  | S fuel =>
      match scaled_compare m e 0 1 0 g with
      | Lt => g
      | _ => decimal_point_from fuel m e (g + 1)
      end
  end.

Definition decimal_point (m e : Z) : Z :=
  let bits := Z.log2 m + e in
  decimal_point_from 4 m e (bits * 30103 / 100000 - 1).

(** Whether the decimal [N * 10^q] reads back as the float [m * 2^e]
    (round to nearest, ties to even). *)
Definition reads_back (m e N q : Z) : bool :=
  let below := if (m =? 2 ^ (prec - 1)) && (3 - emax - prec <? e) then 1 else 2 in
  let lo := scaled_compare (4 * m - below) (e - 2) 0 N 0 q in
  let hi := scaled_compare N 0 q (4 * m + 2) (e - 2) 0 in
  let closed := Z.even m in
  match lo, hi with
  | Lt, Lt => true
  | Eq, (Lt | Eq) => closed
  | Lt, Eq => closed
  | _, _ => false
  end.

(** The candidates with [n] digits next to [m * 2^e]: its quotient by
    [10^q], rounded down and up.  When both read back, the nearer one is
    taken, and on an exact tie the one whose last digit is even. *)
Definition digits_candidate (m e p n : Z) : option (Z * Z) :=
  let q := p - n in
  let num := m * 2 ^ (Z.max e 0) * 10 ^ (Z.max (- q) 0) in
  let den := 2 ^ (Z.max (- e) 0) * 10 ^ (Z.max q 0) in
  let down := num / den in
  let up := down + 1 in
  let ok_down := reads_back m e down q in
  let ok_up := reads_back m e up q in
  let twice := 2 * (num - down * den) in
  let nearer_down := (twice <? den) || ((twice =? den) && Z.even down) in
  if ok_down && (negb ok_up || nearer_down) then Some (down, q)
  else if ok_up then Some (up, q)
  else None.

Fixpoint shortest_from (fuel : nat) (m e p n : Z) : Z * Z :=
  match fuel with
  | O => (m, 0)
  | S fuel =>
      match digits_candidate m e p n with
      | Some r => r
      | None => shortest_from fuel m e p (n + 1)
      end
  end.

(** Trailing zeros move into the exponent. *)
Fixpoint strip_zeros (fuel : nat) (N q : Z) : Z * Z :=
  match fuel with
  | O => (N, q)
  | S fuel => if (N mod 10 =? 0) && (0 <? N) then strip_zeros fuel (N / 10) (q + 1) else (N, q)
  end.

Fixpoint zeros (n : nat) : string :=
  match n with
  | O => EmptyString
  | S n => "0" +:+ zeros n
  end.

Definition pad2 (s : string) : string :=
  if (String.length s <? 2)%nat then "0" +:+ s else s.

(** The digits [ds] with the decimal point after [decpt] of them. *)
Definition layout (ds : string) (decpt : Z) : string :=
  let n := Z.of_nat (String.length ds) in
  if (decpt <=? -4) || (16 <? decpt) then
    let mant :=
      match ds with
      | String c EmptyString => ds
      | String c rest => String c ("." +:+ rest)
      | EmptyString => ds
      end in
    let x := decpt - 1 in
    mant +:+ "e" +:+ (if x <? 0 then "-" else "+") +:+ pad2 (str_int (Z.abs x))
  else if decpt <=? 0 then
    "0." +:+ zeros (Z.to_nat (- decpt)) +:+ ds
  else if decpt <? n then
    substring 0 (Z.to_nat decpt) ds +:+ "." +:+
    substring (Z.to_nat decpt) (Z.to_nat (n - decpt)) ds
  else
    ds +:+ zeros (Z.to_nat (decpt - n)) +:+ ".0".

Definition float_repr (x : spec_float) : string :=
  match x with
  | S754_nan => "nan"
  | S754_infinity s => if s then "-inf" else "inf"
  | S754_zero s => if s then "-0.0" else "0.0"
  | S754_finite s m e =>
      match binary_normalize prec emax (Z.pos m) e false with
      | S754_finite _ m e =>
          let p := decimal_point (Z.pos m) e in
          let '(N, q) := shortest_from 17 (Z.pos m) e p 1 in
          let '(N, q) := strip_zeros 400 N q in
          let ds := str_int N in
          (if s then "-" else EmptyString) +:+ layout ds (q + Z.of_nat (String.length ds))
      | S754_infinity _ => if s then "-inf" else "inf"
      | _ => if s then "-0.0" else "0.0"
      end
  end.

End FloatStr.

(** ** The vocabulary of the specification *)

(** The source signals every failure of its own with [ValueError]; the
    error kinds of the specification are told apart by the message. *)
Definition invalid_configuration (e : exn) : bool :=
  match e with
  | ValueError msg =>
      bool_decide (msg ∈ [msg_dimensions; msg_background; msg_nothing;
                          msg_image_audio; msg_video_audio])
  | _ => false
  end.

Definition missing_collaborator (e : exn) : bool :=
  match e with
  | ValueError msg => bool_decide (msg = msg_media_manager)
  | _ => false
  end.

Definition duration_unavailable (e : exn) : bool :=
  match e with
  | ValueError msg => bool_decide (msg = msg_duration)
  | _ => false
  end.

(** A field is unset when the code's test [not self.field] holds: it is
    [None] or empty. *)
Definition unset {A} `{Truthy A} (field : option A) : bool := negb (truthy field).

(** The validation rules in the order the specification lists them: the
    message of the first rule that fails, if one does. *)
Definition first_failed_rule (self : VideoBuilder) : option string :=
  match background self with
  | None => Some msg_background
  | Some bg =>
      if unset (audio_file self) && unset (captions self) then Some msg_nothing
      else if is_image bg && unset (audio_file self) then Some msg_image_audio
      else None
  end.

(** What the specification asks of the constructor's argument: a pair of
    positive integers. *)
Definition positive_int (a : scalar) : bool :=
  match a with
  | PyInt n => (0 <? n)%Z
  | _ => false
  end.

Definition well_formed_dimensions (dimensions : object) : bool :=
  match dimensions with
  | PyTuple [w; h] => positive_int w && positive_int h
  | _ => false
  end.

(** What the constructor tests: [isinstance(dimensions, tuple)] and
    [len(dimensions) == 2]. *)
Definition is_pair (dimensions : object) : bool :=
  match dimensions with
  | PyTuple items => (length items =? 2)%nat
  | _ => false
  end.

(** ** The builders of the worked examples *)

(** An inspector that reports one duration for every file. *)
Definition inspector (d : option spec_float) : MediaUtils :=
  {| get_audio_info := fun _ => {| duration := d |} |}.

(** [10.0]. *)
Definition ten_seconds : spec_float := S754_finite false 5629499534213120 (-49).

(** A fresh builder, as the constructor leaves it. *)
Definition fresh (w h : scalar) : VideoBuilder :=
  {| width := w; height := h; ffmpeg_path := "ffmpeg";
     background := None; audio_file := None; captions := None;
     output_path := "output.mp4"; media_utils := None |}.

(** Dimensions [(1080, 1920)], image ["bg.jpg"], audio ["voice.mp3"] of
    the given duration, no captions. *)
Definition narrated_still (d : option spec_float) : VideoBuilder :=
  set_media_utils (inspector d)
    (set_audio "voice.mp3"
       (set_background_image "bg.jpg" None (fresh (PyInt 1080) (PyInt 1920)))).

(** Dimensions [(1280, 720)], video ["clip.mp4"], no audio, captions from
    ["subs.srt"]. *)
Definition subtitled_clip : VideoBuilder :=
  set_captions (PyStr "subs.srt") None
    (set_background_video "clip.mp4" (fresh (PyInt 1280) (PyInt 720))).

(** Dimensions [(1280, 720)], video ["clip.mp4"], no audio, captions
    requested without a file. *)
Definition clip_without_subtitle_file : VideoBuilder :=
  set_captions PyNone None
    (set_background_video "clip.mp4" (fresh (PyInt 1280) (PyInt 720))).

(** ** Execution

    [execute] builds the command and hands it to the media manager.  What
    it does to the outside is kept as a trace: the log records it emits
    and the call of the encoder.  The wall-clock field [execution_time] of
    the log records is left out. *)

Inductive level := DEBUG | INFO | ERROR.

(** The fields [execute] binds to its logger once and for all. *)
Record log_context := {
  ctx_dimensions : scalar * scalar;
  ctx_background_type : option string;
  ctx_has_audio : bool;
  ctx_has_captions : bool;
  ctx_output_path : string;
  ctx_youtube_channel : string
}.

Inductive event :=
| Log (lvl : level) (context : option log_context) (fields : list (string * scalar))
      (message : string)
| Run (cmd : list string) (label : string) (expected_duration : option spec_float)
      (show_progress : bool).

(** [self.background.get("type")]. *)
Definition background_type (bg : Background) : string :=
  match bg with
  | Image _ _ => "image"
  | Video _ => "video"
  end.

(** [str(e)] for an exception: its message; a [KeyError] shows its key
    between quotes. *)
Definition str_exn (e : exn) : string :=
  match e with
  | ValueError msg | TypeError msg | OverflowError msg | Exception _ msg => msg
  | KeyError key => "'" +:+ key +:+ "'"
  end.

Section Execution.

Variable float_str : spec_float -> string.

(** Modelled from the spec: the two other methods of the media manager
    ([video.media.MediaUtils], not among the sources at hand) that
    [execute] calls, [get_video_info(path)] and
    [execute_ffmpeg_command(cmd, label, expected_duration, show_progress)],
    the latter answering with the success flag.  Either may raise. *)
Variable get_video_info : MediaUtils -> string -> result media_info.
Variable execute_ffmpeg_command :
  MediaUtils -> list string -> string -> option spec_float -> bool -> result bool.

(** "Calculate expected duration for progress tracking". *)
Definition expected_duration (self : VideoBuilder) (mu : MediaUtils)
    : result (option spec_float) :=
  if truthy (audio_file self) then
    let audio_info := get_audio_info mu (default EmptyString (audio_file self)) in
    Ok (duration audio_info)
  else
    match background self with
    | Some (Video file) =>
        video_info ← get_video_info mu file;
        Ok (duration video_info)
    | _ => Ok None
    end.

(** [execute]: the trace and the returned flag.  Whatever is raised inside
    the [try] block is logged and turned into [False]. *)
Definition execute (self : VideoBuilder) : list event * bool :=
  match media_utils self with
  | None =>
      ([Log ERROR None [] "MediaUtils must be set before executing video build"], false)
  | Some mu =>
      let context :=
        {| ctx_dimensions := (width self, height self);
           ctx_background_type := background_type <$> background self;
           ctx_has_audio := truthy (audio_file self);
           ctx_has_captions := truthy (captions self);
           ctx_output_path := output_path self;
           ctx_youtube_channel := "https://www.youtube.com/@aiagentsaz" |} in
      let started :=
        [Log DEBUG (Some context) [] "building video with VideoBuilder"] in
      let except (trace : list event) (e : exn) :=
        (trace ++ [Log ERROR (Some context) [("error", PyStr (str_exn e))]
                     "error during video rendering"],
         false) in
      match build_command float_str self with
      | Raise e => except started e
      | Ok cmd =>
          match expected_duration self mu with
          | Raise e => except started e
          | Ok expected =>
              let trace :=
                started ++
                [Log DEBUG (Some context)
                   [("command", PyStr (join " " cmd));
                    ("expected_duration", from_option PyFloat PyNone expected)]
                   "executing video build command";
                 Run cmd "build video" expected true] in
              match execute_ffmpeg_command mu cmd "build video" expected true with
              | Raise e => except trace e
              | Ok true =>
                  (trace ++ [Log INFO (Some context) [] "video built successfully"], true)
              | Ok false =>
                  (trace ++ [Log ERROR (Some context) [] "failed to build video"], false)
              end
          end
      end
  end.

End Execution.

(** The encoder runs of a trace. *)
Definition is_run (ev : event) : bool :=
  match ev with
  | Run _ _ _ _ => true
  | Log _ _ _ _ => false
  end.

Definition runs (trace : list event) : list event := List.filter is_run trace.

(** A video inspector that reports one duration for every file, and an
    encoder that answers with a fixed flag. *)
Definition video_info_of (d : option spec_float) : MediaUtils → string → result media_info :=
  λ _ _, Ok {| duration := d |}.

Definition encoder_answering (flag : bool)
    : MediaUtils → list string → string → option spec_float → bool → result bool :=
  λ _ _ _ _ _, Ok flag.

(** ** Chains of setter calls

    [b.set_audio(..).set_captions(..)...]: each call assigns its field on
    the one builder object and hands the object on to the next call. *)

Inductive call :=
| SetMediaUtils (mu : MediaUtils)
| SetBackgroundImage (file_path : string) (ken_burns_config : option (gmap string scalar))
| SetBackgroundVideo (file_path : string)
| SetAudio (file_path : string)
| SetCaptions (file_path : scalar) (config : option (gmap string scalar))
| SetOutputPath (path : string).

Definition perform (c : call) (self : VideoBuilder) : VideoBuilder :=
  match c with
  | SetMediaUtils mu => set_media_utils mu self
  | SetBackgroundImage file_path config => set_background_image file_path config self
  | SetBackgroundVideo file_path => set_background_video file_path self
  | SetAudio file_path => set_audio file_path self
  | SetCaptions file_path config => set_captions file_path config self
  | SetOutputPath path => set_output_path path self
  end.

(** The calls of a chain, performed from left to right. *)
Definition chain (calls : list call) (self : VideoBuilder) : VideoBuilder :=
  foldl (λ b c, perform c b) self calls.

(** The attribute of the builder a call assigns. *)
Inductive attribute :=
| MediaUtilsAttr | BackgroundAttr | AudioFileAttr | CaptionsAttr | OutputPathAttr.

Definition assigns (c : call) : attribute :=
  match c with
  | SetMediaUtils _ => MediaUtilsAttr
  | SetBackgroundImage _ _ | SetBackgroundVideo _ => BackgroundAttr
  | SetAudio _ => AudioFileAttr
  | SetCaptions _ _ => CaptionsAttr
  | SetOutputPath _ => OutputPathAttr
  end.

Definition attribute_eqb (x y : attribute) : bool :=
  match x, y with
  | MediaUtilsAttr, MediaUtilsAttr | BackgroundAttr, BackgroundAttr
  | AudioFileAttr, AudioFileAttr | CaptionsAttr, CaptionsAttr
  | OutputPathAttr, OutputPathAttr => true
  | _, _ => false
  end.

(** ** Methods on the builder object

    A method call is a computation on the one builder object: it may read
    an attribute, assign one, call the inspector, raise, and it hands back
    the object as the call left it together with what it returned or
    raised. *)

Definition method (A : Type) : Type := VideoBuilder → VideoBuilder * result A.

(** The truth value of a variable is looked up once its type is known. *)
#[global] Hint Mode Truthy ! : typeclass_instances.

#[global] Instance method_ret : MRet method := λ _ a self, (self, Ok a).
#[global] Instance method_bind : MBind method := λ _ _ k m self,
  match m self with
  | (self', Ok a) => k a self'
  | (self', Raise e) => (self', Raise e)
  end.

(** [raise e]. *)
Definition raise {A} (e : exn) : method A := λ self, (self, Raise e).

(** [self.name], read. *)
Definition attr {A} (name : VideoBuilder → A) : method A := λ self, (self, Ok (name self)).

(** [self.name = value], as one of the setters assigns it. *)
Definition assign (update : VideoBuilder → VideoBuilder) : method unit :=
  λ self, (update self, Ok tt).

(** A pure step that may raise. *)
Definition lift {A} (r : result A) : method A := λ self, (self, r).

(** A setter as a method: it assigns its attribute and returns [self]. *)
Definition setter (c : call) : method VideoBuilder :=
  _ ← assign (perform c);
  attr id.

Section Method.

Variable float_str : spec_float → string.

(** Modelled from the spec: a query of the inspector may fail (4.2,
    "query failure").  [query_fails mu path] is the exception the call
    [mu.get_audio_info(path)] raises when it does; otherwise the call
    returns [get_audio_info mu path]. *)
Variable query_fails : MediaUtils → string → option exn.

Definition call_get_audio_info (mu : MediaUtils) (path : string) : method media_info :=
  match query_fails mu path with
  | Some e => raise e
  | None => mret (get_audio_info mu path)
  end.

(** [self.background["type"] == kind]; subscripting [None] raises. *)
Definition background_is (kind : string) : method bool :=
  self_background ← attr background;
  match self_background with
  | Some bg => mret (String.eqb (background_type bg) kind)
  | None => raise (TypeError "'NoneType' object is not subscriptable")
  end.

(** [a and b], the right operand being evaluated only when the left one is
    true. *)
Definition and_then (a b : method bool) : method bool :=
  a ≫= λ x : bool, if x then b else mret false.

(** [if test: raise e], then the rest of the body. *)
Definition raise_if {A} (test : method bool) (e : exn) (rest : method A) : method A :=
  test ≫= λ x : bool, if x then raise e else rest.

(** [if test: .. else: ..]. *)
Definition branch {A} (test : method bool) (yes no : method A) : method A :=
  test ≫= λ x : bool, if x then yes else no.

(** [not self.audio_file]. *)
Definition no_audio_file : method bool :=
  self_audio_file ← attr audio_file;
  mret (negb (truthy self_audio_file)).

(** [build_command] statement by statement, every [self.name] being a
    read of the object. *)
Definition build_command_method : method (list string) :=
  raise_if (self_background ← attr background; mret (is_none self_background))
    (ValueError msg_background) (
  raise_if
    (and_then no_audio_file
              (self_captions ← attr captions; mret (negb (truthy self_captions))))
    (ValueError msg_nothing) (
  raise_if
    (and_then (background_is "image") no_audio_file)
    (ValueError msg_image_audio) (
  raise_if
    (and_then (background_is "video")
       (and_then no_audio_file
                 (self_captions ← attr captions; mret (is_none self_captions))))
    (ValueError msg_video_audio) (
  self_audio_file ← attr audio_file;
  audio_duration ←
    (if truthy self_audio_file then
       self_media_utils ← attr media_utils;
       match self_media_utils with
       | None => raise (ValueError msg_media_manager)
       | Some mu =>
           self_audio_file ← attr audio_file;
           media_info ← call_get_audio_info mu (default EmptyString self_audio_file);
           let audio_duration := duration media_info in
           if negb (truthy audio_duration) then raise (ValueError msg_duration)
           else mret audio_duration
       end
     else mret None);
  self_ffmpeg_path ← attr ffmpeg_path;
  let cmd := [self_ffmpeg_path; "-y"] in
  let filter_parts : list string := [] in
  let input_index := 0%Z in
  '(cmd, filter_parts) ←
    branch (background_is "image")
      (self_background ← attr background;
       match self_background with
       | Some (Image file ken_burns_config) =>
           let cmd :=
             cmd ++ ["-loop"; "1"; "-t"; str_duration float_str audio_duration; "-i"; file] in
           let zoom_factor :=
             dict_get_default ken_burns_config "zoom_factor" (PyFloat default_zoom_factor) in
           zoom_expr ← lift (getitem (zoom_expressions float_str zoom_factor)
                               "zoom-to-top-left");
           let fps := 25%Z in
           frames ← lift (mul_int audio_duration fps);
           duration_frames ← lift (int_of_float frames);
           let zoompan_d := (duration_frames + 1)%Z in
           self_width ← attr width;
           self_height ← attr height;
           mret (cmd,
                 filter_parts ++
                 [ "[" +:+ str_int input_index +:+ "]scale=" +:+ py_str float_str self_width
                   +:+ ":-2,setsar=1:1,"
                   +:+ "crop=" +:+ py_str float_str self_width +:+ ":"
                   +:+ py_str float_str self_height +:+ ","
                   +:+ "zoompan=" +:+ zoom_expr +:+ ":d=" +:+ str_int zoompan_d
                   +:+ ":s=" +:+ py_str float_str self_width +:+ "x"
                   +:+ py_str float_str self_height
                   +:+ ":fps=" +:+ str_int fps +:+ "[bg]" ])
       | _ => raise (KeyError "ken_burns")
       end)
      (branch (background_is "video")
        (self_background ← attr background;
         let file := from_option (λ bg, match bg with Image f _ | Video f => f end)
                       EmptyString self_background in
         let cmd :=
           if truthy audio_duration
           then cmd ++ ["-stream_loop"; "-1"; "-t"; str_duration float_str audio_duration;
                        "-i"; file]
           else cmd ++ ["-i"; file] in
         self_width ← attr width;
         self_height ← attr height;
         mret (cmd,
               filter_parts ++
               [ "[" +:+ str_int input_index +:+ "]scale=" +:+ py_str float_str self_width
                 +:+ ":" +:+ py_str float_str self_height +:+ "[bg]" ]))
        (mret (cmd, filter_parts)));
  let input_index := (input_index + 1)%Z in
  let current_video := "[bg]" in
  self_audio_file ← attr audio_file;
  let '(cmd, audio_input_index, input_index) :=
    if truthy self_audio_file
    then (cmd ++ ["-i"; default EmptyString self_audio_file], Some input_index,
          (input_index + 1)%Z)
    else (cmd, None, input_index) in
  self_captions ← attr captions;
  let '(filter_parts, current_video) :=
    if truthy self_captions then
      let subtitle_file := dict_get (default ∅ self_captions) "file" in
      if truthy subtitle_file
      then (filter_parts ++
            [current_video +:+ "subtitles=" +:+ py_str float_str subtitle_file +:+ "[v]"],
            "[v]")
      else (filter_parts, current_video)
    else
      if String.eqb current_video "[bg]"
      then (filter_parts ++ ["[bg]copy[v]"], "[v]")
      else (filter_parts, current_video) in
  let cmd :=
    if truthy filter_parts
    then cmd ++ ["-filter_complex"; join ";" filter_parts]
    else cmd in
  let cmd := cmd ++ ["-map"; current_video] in
  let cmd :=
    match audio_input_index with
    | Some i => cmd ++ ["-map"; str_int i +:+ ":a"]
    | None => cmd
    end in
  let cmd := cmd ++ ["-c:v"; "libx264"; "-preset"; "ultrafast"] in
  let cmd := cmd ++ ["-crf"; "23"; "-pix_fmt"; "yuv420p"] in
  self_audio_file ← attr audio_file;
  let cmd :=
    if truthy self_audio_file then
      let cmd := cmd ++ ["-c:a"; "aac"; "-b:a"; "192k"] in
      if truthy audio_duration
      then cmd ++ ["-t"; str_duration float_str audio_duration]
      else cmd
    else cmd in
  self_output_path ← attr output_path;
  mret (cmd ++ [self_output_path]))))).

End Method.

(** An inspector whose queries never fail. *)
Definition never_fails : MediaUtils → string → option exn := λ _ _, None.

(** ** Rounding toward zero and upward *)

(** The number a finite float denotes, rounded toward zero. *)
Definition truncation (x : spec_float) : option Z :=
  match x with
  | S754_zero _ => Some 0%Z
  | S754_finite s m e =>
      Some (if (0 <=? e)%Z
            then (cond_Zopp s (Z.pos m) * 2 ^ e)%Z
            else (cond_Zopp s (Z.pos m) ÷ 2 ^ (- e))%Z)
  | _ => None
  end.

(** The number a finite float denotes, rounded upward: the opposite of
    the floor of its opposite. *)
Definition ceiling (x : spec_float) : option Z := Z.opp <$> floor (SFopp x).

(** * Properties *)

(** ** Facts about the runtime fragment *)

Lemma truthy_dict_false {V} (d : gmap string V) : truthy d = false ↔ d = ∅.
Proof.
  unfold truthy, dict_truthy, truthy, list_truthy.
  rewrite <- (map_to_list_empty_iff d).
  destruct (map_to_list d); split; congruence.
Qed.

(** The product of two finite floats, when finite, carries the
    exclusive-or of their signs. *)
Lemma SFmul_finite_sign sx mx ex sy my ey s m e :
  SFmul prec emax (S754_finite sx mx ex) (S754_finite sy my ey) = S754_finite s m e →
  s = xorb sx sy.
Proof.
  simpl. unfold binary_round_aux.
  destruct (shr_fexp _ _ _ _ _) as [mrs' e'].
  destruct (shr_fexp _ _ _ _ _) as [mrs'' e''].
  destruct (shr_m mrs''); try discriminate.
  destruct (Z.leb _ _); try discriminate.
  by intros [= <- _ _].
Qed.

(** [25] as a float. *)
Lemma float_of_int_25 : float_of_int 25 = S754_finite false 7036874417766400 (-48).
Proof. reflexivity. Qed.

(** On a float that is not negative, [int] is the floor. *)
Lemma int_of_float_floor x :
  finite x = true →
  (∀ m e, x ≠ S754_finite true m e) →
  ∃ n, int_of_float x = Ok n ∧ floor x = Some n ∧ (0 <= n)%Z.
Proof.
  destruct x as [s|s| |s m e]; try discriminate; intros _ Hs.
  - by exists 0%Z.
  - destruct s; [by destruct (Hs m e)|].
    simpl. eexists; split_and!; [done| |apply Z.shiftl_nonneg; lia]. f_equal.
    destruct e as [|p|p]; simpl.
    + by rewrite Z.mul_1_r.
    + by rewrite Z.shiftl_mul_pow2.
    + change (Z.shiftl (Z.pos m) (Z.neg p)) with (Z.shiftr (Z.pos m) (Z.pos p)).
      by rewrite Z.shiftr_div_pow2.
Qed.

Lemma positive_float_inv x :
  positive_float x = true →
  x = S754_infinity false ∨ ∃ m e, x = S754_finite false m e.
Proof.
  destruct x as [s|[]| |[] m e]; try discriminate; eauto.
Qed.

Lemma positive_float_truthy x : positive_float x = true → truthy x = true.
Proof. by destruct x. Qed.

(** For a positive duration whose frame product is finite, [int] of the
    product is its floor. *)
Lemma frames_floor d :
  positive_float d = true →
  finite (SFmul prec emax d (float_of_int 25)) = true →
  ∃ n, int_of_float (SFmul prec emax d (float_of_int 25)) = Ok n ∧
       floor (SFmul prec emax d (float_of_int 25)) = Some n ∧ (0 <= n)%Z.
Proof.
  intros Hd Hfin. apply int_of_float_floor; [done|].
  intros m e Hp. rewrite float_of_int_25 in Hp.
  destruct (positive_float_inv _ Hd) as [->|(md & ed & ->)]; [discriminate|].
  by apply SFmul_finite_sign in Hp.
Qed.

(** ** The method and its passes *)

Section Passes.

Variable float_str : spec_float → string.

Lemma build_command_passes self :
  build_command float_str self =
  bg ← validate self;
  d ← audio_duration self;
  '(inputs, stage) ← background_part float_str self bg d;
  let '(extra, label) := caption_part float_str self in
  Ok (sequence float_str self d inputs (stage :: extra) label).
Proof.
  unfold build_command, validate, audio_duration, background_part,
    caption_part, sequence, image_stage, video_stage, zoom_rate, zoom_to_top_left.
  destruct (background self) as [[file kb|file]|]; [..|done];
    destruct (audio_file self) as [a|], (captions self) as [m|]; cbn;
    try (destruct (truthy a) eqn:Ha; cbn);
    try (destruct (truthy m) eqn:Hm; cbn); try done.
  all: try (destruct (media_utils self) as [mu|]; [|done]; cbn;
            destruct (duration _) as [d|]; [|done]; cbn;
            destruct (truthy d) eqn:Hd; [|done]; cbn; try rewrite Hd).
  all: try (destruct (int_of_float _); [|done]; cbn).
  all: try (destruct (truthy (dict_get _ _))); try reflexivity.
Qed.

End Passes.

(** ** The worked examples of the specification *)

Example init_portrait :
  init (PyTuple [PyInt 1080; PyInt 1920]) "ffmpeg" = Ok (fresh (PyInt 1080) (PyInt 1920)).
Proof. reflexivity. Qed.

Example default_zoom_factor_str : FloatStr.float_repr default_zoom_factor = "0.001".
Proof. vm_compute. reflexivity. Qed.

Example narrated_still_command :
  build_command FloatStr.float_repr (narrated_still (Some ten_seconds)) =
  Ok ["ffmpeg"; "-y"; "-loop"; "1"; "-t"; "10.0"; "-i"; "bg.jpg"; "-i"; "voice.mp3";
      "-filter_complex";
      "[0]scale=1080:-2,setsar=1:1,crop=1080:1920,zoompan=z='zoom+0.001':x=0:y=0:d=251:s=1080x1920:fps=25[bg];[bg]copy[v]";
      "-map"; "[v]"; "-map"; "1:a";
      "-c:v"; "libx264"; "-preset"; "ultrafast"; "-crf"; "23"; "-pix_fmt"; "yuv420p";
      "-c:a"; "aac"; "-b:a"; "192k"; "-t"; "10.0"; "output.mp4"].
Proof. vm_compute. reflexivity. Qed.

Example subtitled_clip_command :
  build_command FloatStr.float_repr subtitled_clip =
  Ok ["ffmpeg"; "-y"; "-i"; "clip.mp4";
      "-filter_complex"; "[0]scale=1280:720[bg];[bg]subtitles=subs.srt[v]";
      "-map"; "[v]";
      "-c:v"; "libx264"; "-preset"; "ultrafast"; "-crf"; "23"; "-pix_fmt"; "yuv420p";
      "output.mp4"].
Proof. vm_compute. reflexivity. Qed.

(** ** Validation *)

Section Validation.

Variable float_str : spec_float → string.

(** The checks of the method are the rules of the specification: the
    fourth check never fires, the second one covers it. *)
Lemma validate_rules self :
  validate self =
  match first_failed_rule self, background self with
  | Some msg, _ => Raise (ValueError msg)
  | None, Some bg => Ok bg
  | None, None => Raise (ValueError msg_background)
  end.
Proof.
  unfold validate, first_failed_rule, unset.
  destruct (background self) as [bg|]; [|done].
  destruct (audio_file self) as [a|], (captions self) as [m|]; cbn;
    try destruct (truthy a); try destruct (truthy m); destruct bg; done.
Qed.

(** After validation the method raises nothing that counts as an invalid
    configuration. *)
Lemma later_passes_kind self bg e :
  (d ← audio_duration self;
   '(inputs, stage) ← background_part float_str self bg d;
   let '(extra, label) := caption_part float_str self in
   Ok (sequence float_str self d inputs (stage :: extra) label)) = Raise e →
  invalid_configuration e = false.
Proof.
  unfold audio_duration.
  destruct (truthy (audio_file self)); cbn.
  - destruct (media_utils self) as [mu|]; cbn; [|by intros [= <-]].
    destruct (truthy (duration _)); cbn; [|by intros [= <-]].
    destruct (background_part _ _ _ _) as [[inputs stage]|e'] eqn:Hp; cbn.
    + by destruct (caption_part _ _).
    + intros [= <-]. destruct bg; [|done]. cbn in Hp.
      destruct (mul_int _ _) as [x|] eqn:Hx; cbn in Hp.
      * destruct x; cbn in Hp; try discriminate; by injection Hp as <-.
      * destruct (duration _); [done|]. injection Hx as <-. by injection Hp as <-.
  - destruct bg; cbn; [by intros [= <-]|]. by destruct (caption_part _ _).
Qed.

(** C1. [build_command] raises an invalid-configuration error exactly when
    a validation rule fails, the rules being tried in order: the background
    is unset; the audio file and the captions are both unset; the background
    is an image and the audio file is unset.  The error is that of the first
    rule that fails, and nothing is returned.  In particular an image
    background without audio fails whatever the captions, and a video
    background without audio and without captions fails. *)
Theorem validation_rules self :
  (∀ msg, first_failed_rule self = Some msg →
     build_command float_str self = Raise (ValueError msg) ∧
     invalid_configuration (ValueError msg) = true) ∧
  (first_failed_rule self = None →
     ∀ e, build_command float_str self = Raise e → invalid_configuration e = false) ∧
  (∀ file kb, background self = Some (Image file kb) → unset (audio_file self) = true →
     ∃ e, build_command float_str self = Raise e ∧ invalid_configuration e = true) ∧
  (∀ file, background self = Some (Video file) →
     unset (audio_file self) = true → unset (captions self) = true →
     ∃ e, build_command float_str self = Raise e ∧ invalid_configuration e = true).
Proof.
  assert (Hfail : ∀ msg, first_failed_rule self = Some msg →
     build_command float_str self = Raise (ValueError msg) ∧
     invalid_configuration (ValueError msg) = true).
  { intros msg Hr. rewrite build_command_passes, validate_rules, Hr. split; [done|].
    unfold first_failed_rule in Hr.
    destruct (background self); [|injection Hr as <-; reflexivity].
    repeat (destruct (_ && _); [injection Hr as <-; reflexivity|]). discriminate. }
  split_and!.
  - done.
  - intros Hr e. rewrite build_command_passes, validate_rules, Hr.
    destruct (background self) as [bg|] eqn:Hbg; [apply later_passes_kind|].
    unfold first_failed_rule in Hr. by rewrite Hbg in Hr.
  - intros file kb Hbg Ha.
    destruct (first_failed_rule self) as [msg|] eqn:Hr;
      [exists (ValueError msg); by apply Hfail|].
    unfold first_failed_rule in Hr. rewrite Hbg, Ha in Hr. cbn in Hr.
    by destruct (unset (captions self)).
  - intros file Hbg Ha Hc.
    destruct (first_failed_rule self) as [msg|] eqn:Hr;
      [exists (ValueError msg); by apply Hfail|].
    unfold first_failed_rule in Hr. by rewrite Hbg, Ha, Hc in Hr.
Qed.

(** C2, as the code has it.  The constructor raises its
    invalid-configuration error exactly when the argument is not a tuple
    or is a tuple whose length is not two; a tuple of two components is
    accepted whatever the components are, and they become the width and
    the height.  A pair of positive integers is such a tuple. *)
Theorem init_rejects_non_pairs dimensions path :
  ((is_pair dimensions = false ∧
    init dimensions path = Raise (ValueError msg_dimensions) ∧
    invalid_configuration (ValueError msg_dimensions) = true) ∨
   (is_pair dimensions = true ∧
    ∃ w h self, dimensions = PyTuple [w; h] ∧ init dimensions path = Ok self ∧
      width self = w ∧ height self = h ∧ ffmpeg_path self = path ∧
      background self = None ∧ audio_file self = None ∧ captions self = None ∧
      media_utils self = None ∧ output_path self = "output.mp4")) ∧
  (well_formed_dimensions dimensions = true → is_pair dimensions = true).
Proof.
  destruct dimensions as [a|[|w [|h [|x items]]]|items]; cbn;
    try (by split; [left|]).
  split; [|done]. right. split; [done|]. by eexists w, h, _.
Qed.

End Validation.

(** C2 fails as stated: a pair with a zero and a negative component is not
    a pair of positive integers, and the constructor accepts it. *)
Lemma init_accepts_nonpositive :
  well_formed_dimensions (PyTuple [PyInt 0; PyInt (-5)]) = false ∧
  init (PyTuple [PyInt 0; PyInt (-5)]) "ffmpeg" = Ok (fresh (PyInt 0) (PyInt (-5))).
Proof. split; reflexivity. Qed.

(** ** The audio duration *)

Section AudioDuration.

Variable float_str : spec_float → string.

(** With a background and an audio file, validation passes. *)
Lemma validate_with_audio self bg a :
  background self = Some bg → audio_file self = Some a → truthy a = true →
  validate self = Ok bg.
Proof.
  intros Hbg Ha Ht. unfold validate. rewrite Hbg, Ha. cbn. rewrite Ht. cbn.
  by rewrite !andb_false_r.
Qed.

(** The error kinds do not overlap. *)
Lemma kinds_disjoint e :
  (duration_unavailable e = true →
     invalid_configuration e = false ∧ missing_collaborator e = false) ∧
  (missing_collaborator e = true →
     invalid_configuration e = false ∧ duration_unavailable e = false).
Proof.
  destruct e as [msg| | | |]; cbn; try done.
  split; intros ->%bool_decide_eq_true; split; reflexivity.
Qed.

(** C3, as the code has it.  For a builder with a background and an audio
    file set -- so that validation passes -- the method raises the
    missing-collaborator error when no media inspector is attached; with an
    inspector it raises the duration-unavailable error, which is neither
    an invalid-configuration nor a missing-collaborator error, when the
    reported duration is absent or a zero; and when the reported duration
    is nonzero (a positive one is) it goes on to the later passes with
    that duration, so that none of the three kinds of error is raised. *)
Theorem audio_duration_check self bg a :
  background self = Some bg → audio_file self = Some a → truthy a = true →
  (media_utils self = None →
     build_command float_str self = Raise (ValueError msg_media_manager) ∧
     missing_collaborator (ValueError msg_media_manager) = true) ∧
  (∀ mu, media_utils self = Some mu →
     duration (get_audio_info mu a) = None ∨
     (∃ s, duration (get_audio_info mu a) = Some (S754_zero s)) →
     build_command float_str self = Raise (ValueError msg_duration) ∧
     duration_unavailable (ValueError msg_duration) = true ∧
     invalid_configuration (ValueError msg_duration) = false ∧
     missing_collaborator (ValueError msg_duration) = false) ∧
  (∀ mu d, media_utils self = Some mu →
     duration (get_audio_info mu a) = Some d → truthy d = true →
     build_command float_str self =
       ('(inputs, stage) ← background_part float_str self bg (Some d);
        let '(extra, label) := caption_part float_str self in
        Ok (sequence float_str self (Some d) inputs (stage :: extra) label)) ∧
     ∀ e, build_command float_str self = Raise e →
       invalid_configuration e = false ∧ missing_collaborator e = false ∧
       duration_unavailable e = false) ∧
  (∀ d, positive_float d = true → truthy d = true) ∧
  (∀ e, duration_unavailable e = true →
     invalid_configuration e = false ∧ missing_collaborator e = false).
Proof.
  intros Hbg Ha Ht.
  pose proof (validate_with_audio _ _ _ Hbg Ha Ht) as Hv.
  rewrite build_command_passes, Hv. unfold audio_duration. rewrite Ha. cbn.
  rewrite Ht. split_and!.
  - by intros ->.
  - intros mu -> [Hd|[s Hd]]; rewrite Hd; cbn; split_and!; reflexivity.
  - intros mu d -> Hd Htd.
    assert (truthy (Some d) = true) as Hsd by exact Htd.
    rewrite Hd, Hsd. split; [reflexivity|].
    intros e. cbn.
    destruct bg as [file kb|file]; cbn.
    + destruct (int_of_float _) as [n|e'] eqn:Hn; cbn.
      * by destruct (caption_part _ _).
      * intros [= <-].
        destruct (SFmul _ _ _ _); cbn in Hn; try discriminate;
          by injection Hn as <-.
    + by destruct (caption_part _ _).
  - apply positive_float_truthy.
  - intros e. apply kinds_disjoint.
Qed.

End AudioDuration.

(** C3 fails as stated: with an audio file set and no inspector, but no
    background either, the error is that of the first validation rule,
    not the missing-collaborator one. *)
Lemma audio_without_background :
  let self := set_audio "voice.mp3" (fresh (PyInt 1080) (PyInt 1920)) in
  audio_file self = Some "voice.mp3" ∧ media_utils self = None ∧
  build_command FloatStr.float_repr self = Raise (ValueError msg_background) ∧
  missing_collaborator (ValueError msg_background) = false ∧
  invalid_configuration (ValueError msg_background) = true.
Proof. cbv zeta. split_and!; reflexivity. Qed.

(** The check at work on the narrated still of the first example. *)
Lemma audio_duration_check_witness :
  let self := narrated_still (Some ten_seconds) in
  build_command FloatStr.float_repr self =
    ('(inputs, stage) ← background_part FloatStr.float_repr self
                          (Image "bg.jpg" ∅) (Some ten_seconds);
     let '(extra, label) := caption_part FloatStr.float_repr self in
     Ok (sequence FloatStr.float_repr self (Some ten_seconds) inputs (stage :: extra) label)).
Proof.
  cbv zeta.
  refine (proj1 (proj1 (proj2 (proj2
    (audio_duration_check FloatStr.float_repr (narrated_still (Some ten_seconds))
       (Image "bg.jpg" ∅) "voice.mp3" _ _ _))) (inspector (Some ten_seconds))
       ten_seconds _ _ _)); reflexivity.
Defined.

(** ** Image backgrounds *)

Section ImageBackground.

Variable float_str : spec_float → string.

Lemma audio_duration_ok self a mu d :
  audio_file self = Some a → truthy a = true →
  media_utils self = Some mu → duration (get_audio_info mu a) = Some d →
  truthy d = true →
  audio_duration self = Ok (Some d).
Proof.
  intros Ha Ht Hmu Hd Htd. unfold audio_duration. rewrite Ha, Hmu. cbn.
  rewrite Ht, Hd. cbn. by rewrite Htd.
Qed.

Lemma audio_duration_none self :
  unset (audio_file self) = true → audio_duration self = Ok None.
Proof.
  unfold unset, audio_duration. by destruct (truthy (audio_file self)).
Qed.

(** The command for an image background, an audio file and a nonzero
    duration, whenever [int] of the frame product is defined. *)
Lemma image_command self file kb a mu d n :
  background self = Some (Image file kb) →
  audio_file self = Some a → truthy a = true →
  media_utils self = Some mu → duration (get_audio_info mu a) = Some d →
  truthy d = true →
  int_of_float (SFmul prec emax d (float_of_int 25)) = Ok n →
  build_command float_str self =
  Ok [ffmpeg_path self; "-y"; "-loop"; "1"; "-t"; float_str d; "-i"; file; "-i"; a;
      "-filter_complex";
      join ";" (image_stage float_str self (zoom_to_top_left float_str (zoom_rate kb)) (n + 1)
                :: (caption_part float_str self).1);
      "-map"; (caption_part float_str self).2; "-map"; "1:a";
      "-c:v"; "libx264"; "-preset"; "ultrafast"; "-crf"; "23"; "-pix_fmt"; "yuv420p";
      "-c:a"; "aac"; "-b:a"; "192k"; "-t"; float_str d; output_path self].
Proof.
  intros Hbg Ha Ht Hmu Hd Htd Hn.
  rewrite build_command_passes, (validate_with_audio _ _ _ Hbg Ha Ht).
  rewrite (audio_duration_ok _ _ _ _ Ha Ht Hmu Hd Htd).
  cbn [mbind result_bind background_part mul_int]. rewrite Hn.
  cbn [mbind result_bind]. destruct (caption_part _ _) as [extra label].
  unfold sequence. rewrite Ha. cbn. by rewrite Ht, Htd.
Qed.

(** What a successful build on an image background went through. *)
Lemma image_command_inv self file kb cmd :
  background self = Some (Image file kb) →
  build_command float_str self = Ok cmd →
  ∃ a mu d n, audio_file self = Some a ∧ truthy a = true ∧
    media_utils self = Some mu ∧ duration (get_audio_info mu a) = Some d ∧
    truthy d = true ∧
    int_of_float (SFmul prec emax d (float_of_int 25)) = Ok n.
Proof.
  intros Hbg. rewrite build_command_passes. unfold validate, audio_duration.
  rewrite Hbg.
  destruct (audio_file self) as [a|]; cbn; [|by destruct (truthy (captions self))].
  destruct (truthy a) eqn:Ht; cbn; [|by destruct (truthy (captions self))].
  destruct (media_utils self) as [mu|]; [|done].
  destruct (duration _) as [d|] eqn:Hd; [|done]. cbn.
  destruct (truthy d) eqn:Htd; [|done]. cbn.
  destruct (int_of_float _) as [n|] eqn:Hn; [|done].
  intros _. by exists a, mu, d, n.
Qed.

(** C4, as the code has it.  For an image background and an audio file
    whose reported duration [d] is positive, provided the float product
    [d * 25] is finite: the image input is declared by [-loop 1 -t str(d)],
    the zoompan stage declares [floor(d * 25) + 1] frames, and the cap
    [-t str(d)] follows the audio codec flags. *)
Theorem image_duration_flags self file kb a mu d :
  background self = Some (Image file kb) →
  audio_file self = Some a → truthy a = true →
  media_utils self = Some mu → duration (get_audio_info mu a) = Some d →
  positive_float d = true →
  finite (SFmul prec emax d (float_of_int 25)) = true →
  ∃ n, floor (SFmul prec emax d (float_of_int 25)) = Some n ∧
    build_command float_str self =
    Ok [ffmpeg_path self; "-y"; "-loop"; "1"; "-t"; float_str d; "-i"; file; "-i"; a;
        "-filter_complex";
        join ";"
          (("[0]scale=" +:+ py_str float_str (width self) +:+ ":-2,setsar=1:1,crop="
            +:+ py_str float_str (width self) +:+ ":" +:+ py_str float_str (height self)
            +:+ ",zoompan=" +:+ zoom_to_top_left float_str (zoom_rate kb)
            +:+ ":d=" +:+ str_int (n + 1)
            +:+ ":s=" +:+ py_str float_str (width self) +:+ "x"
            +:+ py_str float_str (height self) +:+ ":fps=25[bg]")
           :: (caption_part float_str self).1);
        "-map"; (caption_part float_str self).2; "-map"; "1:a";
        "-c:v"; "libx264"; "-preset"; "ultrafast"; "-crf"; "23"; "-pix_fmt"; "yuv420p";
        "-c:a"; "aac"; "-b:a"; "192k"; "-t"; float_str d; output_path self].
Proof.
  intros Hbg Ha Ht Hmu Hd Hpos Hfin.
  destruct (frames_floor d Hpos Hfin) as (n & Hn & Hfl & _).
  exists n. split; [done|].
  by apply (image_command _ _ _ _ mu); [..|apply positive_float_truthy|].
Qed.

End ImageBackground.

(** C4 fails as stated: an infinite duration is positive, and the
    conversion of the frame product to an integer overflows. *)
Lemma endless_audio_overflows :
  positive_float (S754_infinity false) = true ∧
  build_command FloatStr.float_repr (narrated_still (Some (S754_infinity false))) =
  Raise (OverflowError "cannot convert float infinity to integer").
Proof. split; reflexivity. Qed.

(** The first worked example: ten seconds of audio give 251 frames. *)
Lemma image_duration_flags_witness :
  ∃ n, floor (SFmul prec emax ten_seconds (float_of_int 25)) = Some n ∧
    build_command FloatStr.float_repr (narrated_still (Some ten_seconds)) =
    Ok ["ffmpeg"; "-y"; "-loop"; "1"; "-t"; FloatStr.float_repr ten_seconds;
        "-i"; "bg.jpg"; "-i"; "voice.mp3";
        "-filter_complex";
        join ";"
          (("[0]scale=" +:+ "1080" +:+ ":-2,setsar=1:1,crop="
            +:+ "1080" +:+ ":" +:+ "1920"
            +:+ ",zoompan=" +:+ zoom_to_top_left FloatStr.float_repr (zoom_rate ∅)
            +:+ ":d=" +:+ str_int (n + 1)
            +:+ ":s=" +:+ "1080" +:+ "x" +:+ "1920" +:+ ":fps=25[bg]")
           :: ["[bg]copy[v]"]);
        "-map"; "[v]"; "-map"; "1:a";
        "-c:v"; "libx264"; "-preset"; "ultrafast"; "-crf"; "23"; "-pix_fmt"; "yuv420p";
        "-c:a"; "aac"; "-b:a"; "192k"; "-t"; FloatStr.float_repr ten_seconds;
        "output.mp4"].
Proof.
  exact (image_duration_flags FloatStr.float_repr (narrated_still (Some ten_seconds))
           "bg.jpg" ∅ "voice.mp3" (inspector (Some ten_seconds)) ten_seconds
           eq_refl eq_refl eq_refl eq_refl eq_refl eq_refl eq_refl).
Defined.

(** ** The pan/zoom preset *)

Section PanZoom.

Variable float_str : spec_float → string.

Lemma or_empty_some {V} (d : gmap string V) : or_empty (Some d) = d.
Proof.
  unfold or_empty. destruct (truthy d) eqn:E; [done|].
  by apply truthy_dict_false in E.
Qed.

(** The method reads the pan/zoom configuration through its zoom rate
    only. *)
Lemma build_command_zoom_rate self file kb1 kb2 :
  zoom_rate kb1 = zoom_rate kb2 →
  build_command float_str (set_background (Image file kb1) self) =
  build_command float_str (set_background (Image file kb2) self).
Proof.
  intros Hz. rewrite !build_command_passes.
  unfold validate, audio_duration, caption_part, sequence, image_stage.
  cbn [background set_background audio_file captions media_utils width height
       ffmpeg_path output_path].
  unfold is_video, is_image.
  destruct (truthy (audio_file self)), (truthy (captions self));
    cbn [negb andb mbind result_bind background_part]; try done.
  all: by rewrite Hz.
Qed.

(** C5.  On an image background that builds -- an audio file whose
    reported duration is nonzero and gives a frame count [n] -- the command
    carries the zoompan expression [z='zoom+r':x=0:y=0], with [r] the entry
    ["zoom_factor"] of the pan/zoom configuration when there is one and
    [0.001] otherwise; and a second configuration that differs from the
    first in the entry ["direction"] only gives the very same command.
    Whatever the builder, the two configurations give the same outcome,
    and every command built on an image background has that expression. *)
Theorem zoom_preset_ignored self file kb kb' a mu d n :
  audio_file self = Some a → truthy a = true →
  media_utils self = Some mu → duration (get_audio_info mu a) = Some d →
  truthy d = true →
  int_of_float (SFmul prec emax d (float_of_int 25)) = Ok n →
  (∀ k, k ≠ "direction" → kb !! k = kb' !! k) →
  let r := default (PyFloat default_zoom_factor) (kb !! "zoom_factor") in
  let cmd :=
    [ffmpeg_path self; "-y"; "-loop"; "1"; "-t"; float_str d; "-i"; file; "-i"; a;
     "-filter_complex";
     join ";"
       (image_stage float_str self ("z='zoom+" +:+ py_str float_str r +:+ "':x=0:y=0")
          (n + 1)
        :: (caption_part float_str self).1);
     "-map"; (caption_part float_str self).2; "-map"; "1:a";
     "-c:v"; "libx264"; "-preset"; "ultrafast"; "-crf"; "23"; "-pix_fmt"; "yuv420p";
     "-c:a"; "aac"; "-b:a"; "192k"; "-t"; float_str d; output_path self] in
  build_command float_str (set_background_image file (Some kb) self) = Ok cmd ∧
  build_command float_str (set_background_image file (Some kb') self) = Ok cmd ∧
  (∀ other kb1 kb2, (∀ k, k ≠ "direction" → kb1 !! k = kb2 !! k) →
     build_command float_str (set_background_image file (Some kb1) other) =
     build_command float_str (set_background_image file (Some kb2) other)) ∧
  (∀ other kb0 cmd0, background other = Some (Image file kb0) →
     build_command float_str other = Ok cmd0 →
     ∃ r0 a0 d0 n0,
       r0 = default (PyFloat default_zoom_factor) (kb0 !! "zoom_factor") ∧
       cmd0 =
       [ffmpeg_path other; "-y"; "-loop"; "1"; "-t"; float_str d0; "-i"; file; "-i"; a0;
        "-filter_complex";
        join ";"
          (image_stage float_str other
             ("z='zoom+" +:+ py_str float_str r0 +:+ "':x=0:y=0") n0
           :: (caption_part float_str other).1);
        "-map"; (caption_part float_str other).2; "-map"; "1:a";
        "-c:v"; "libx264"; "-preset"; "ultrafast"; "-crf"; "23"; "-pix_fmt"; "yuv420p";
        "-c:a"; "aac"; "-b:a"; "192k"; "-t"; float_str d0; output_path other]).
Proof.
  intros Ha Ht Hmu Hd Htd Hn Hkb r cmd.
  assert (∀ other kb1 kb2, (∀ k, k ≠ "direction" → kb1 !! k = kb2 !! k) →
            build_command float_str (set_background_image file (Some kb1) other) =
            build_command float_str (set_background_image file (Some kb2) other))
    as Hsame.
  { intros other kb1 kb2 Hagree. unfold set_background_image. rewrite !or_empty_some.
    apply build_command_zoom_rate. unfold zoom_rate, dict_get_default.
    by rewrite Hagree. }
  assert (build_command float_str (set_background_image file (Some kb) self) = Ok cmd)
    as Hcmd.
  { unfold set_background_image. rewrite or_empty_some.
    by rewrite (image_command float_str (set_background (Image file kb) self)
                  file kb a mu d n eq_refl Ha Ht Hmu Hd Htd Hn). }
  split_and!.
  - done.
  - by rewrite <- (Hsame self kb kb' Hkb).
  - done.
  - intros other kb0 cmd0 Hbg Hcmd0.
    destruct (image_command_inv float_str _ _ _ _ Hbg Hcmd0)
      as (a0 & mu0 & d0 & n0 & Ha0 & Ht0 & Hmu0 & Hd0 & Htd0 & Hn0).
    rewrite (image_command float_str _ _ _ _ _ _ _ Hbg Ha0 Ht0 Hmu0 Hd0 Htd0 Hn0)
      in Hcmd0.
    injection Hcmd0 as <-. by eexists _, a0, d0, (n0 + 1)%Z.
Qed.

End PanZoom.

(** A requested preset changes nothing: asking for [zoom-to-center] on the
    narrated still gives the command of the first worked example. *)
Example direction_is_ignored :
  build_command FloatStr.float_repr
    (set_background_image "bg.jpg" (Some {[ "direction" := PyStr "zoom-to-center" ]})
       (narrated_still (Some ten_seconds))) =
  build_command FloatStr.float_repr (narrated_still (Some ten_seconds)).
Proof. vm_compute. reflexivity. Qed.

(** The narrated still asked for [zoom-to-top] and for [zoom-to-center]:
    one command, with the default rate. *)
Lemma zoom_preset_ignored_witness :
  build_command FloatStr.float_repr
    (set_background_image "bg.jpg" (Some {[ "direction" := PyStr "zoom-to-top" ]})
       (narrated_still (Some ten_seconds))) =
  Ok ["ffmpeg"; "-y"; "-loop"; "1"; "-t"; "10.0"; "-i"; "bg.jpg"; "-i"; "voice.mp3";
      "-filter_complex";
      "[0]scale=1080:-2,setsar=1:1,crop=1080:1920,zoompan=z='zoom+0.001':x=0:y=0:d=251:s=1080x1920:fps=25[bg];[bg]copy[v]";
      "-map"; "[v]"; "-map"; "1:a";
      "-c:v"; "libx264"; "-preset"; "ultrafast"; "-crf"; "23"; "-pix_fmt"; "yuv420p";
      "-c:a"; "aac"; "-b:a"; "192k"; "-t"; "10.0"; "output.mp4"] ∧
  build_command FloatStr.float_repr
    (set_background_image "bg.jpg" (Some {[ "direction" := PyStr "zoom-to-center" ]})
       (narrated_still (Some ten_seconds))) =
  Ok ["ffmpeg"; "-y"; "-loop"; "1"; "-t"; "10.0"; "-i"; "bg.jpg"; "-i"; "voice.mp3";
      "-filter_complex";
      "[0]scale=1080:-2,setsar=1:1,crop=1080:1920,zoompan=z='zoom+0.001':x=0:y=0:d=251:s=1080x1920:fps=25[bg];[bg]copy[v]";
      "-map"; "[v]"; "-map"; "1:a";
      "-c:v"; "libx264"; "-preset"; "ultrafast"; "-crf"; "23"; "-pix_fmt"; "yuv420p";
      "-c:a"; "aac"; "-b:a"; "192k"; "-t"; "10.0"; "output.mp4"].
Proof.
  assert (∀ k : string, k ≠ "direction" →
            ({[ "direction" := PyStr "zoom-to-top" ]} : gmap string scalar) !! k =
            ({[ "direction" := PyStr "zoom-to-center" ]} : gmap string scalar) !! k)
    as Hagree.
  { intros k Hk. by rewrite !lookup_singleton_ne. }
  pose proof (zoom_preset_ignored FloatStr.float_repr (narrated_still (Some ten_seconds))
                "bg.jpg" {[ "direction" := PyStr "zoom-to-top" ]}
                {[ "direction" := PyStr "zoom-to-center" ]}
                "voice.mp3" (inspector (Some ten_seconds)) ten_seconds 250
                eq_refl eq_refl eq_refl eq_refl eq_refl eq_refl Hagree) as H.
  cbv zeta in H. destruct H as (H1 & H2 & _). split.
  - rewrite H1. vm_compute. reflexivity.
  - rewrite H2. vm_compute. reflexivity.
Defined.

(** ** Video backgrounds *)

Section VideoBackground.

Variable float_str : spec_float → string.

(** The command for a video background with an audio file of nonzero
    duration. *)
Lemma video_command_audio self file a mu d :
  background self = Some (Video file) →
  audio_file self = Some a → truthy a = true →
  media_utils self = Some mu → duration (get_audio_info mu a) = Some d →
  truthy d = true →
  build_command float_str self =
  Ok [ffmpeg_path self; "-y"; "-stream_loop"; "-1"; "-t"; float_str d; "-i"; file;
      "-i"; a;
      "-filter_complex"; join ";" (video_stage float_str self :: (caption_part float_str self).1);
      "-map"; (caption_part float_str self).2; "-map"; "1:a";
      "-c:v"; "libx264"; "-preset"; "ultrafast"; "-crf"; "23"; "-pix_fmt"; "yuv420p";
      "-c:a"; "aac"; "-b:a"; "192k"; "-t"; float_str d; output_path self].
Proof.
  intros Hbg Ha Ht Hmu Hd Htd.
  rewrite build_command_passes, (validate_with_audio _ _ _ Hbg Ha Ht).
  rewrite (audio_duration_ok _ _ _ _ Ha Ht Hmu Hd Htd).
  cbn [mbind result_bind background_part]. destruct (caption_part _ _) as [extra label].
  unfold sequence. rewrite Ha. cbn. by rewrite Ht, Htd.
Qed.

(** The command for a video background without audio, captions being
    set. *)
Lemma video_command_silent self file :
  background self = Some (Video file) →
  unset (audio_file self) = true → truthy (captions self) = true →
  build_command float_str self =
  Ok [ffmpeg_path self; "-y"; "-i"; file;
      "-filter_complex"; join ";" (video_stage float_str self :: (caption_part float_str self).1);
      "-map"; (caption_part float_str self).2;
      "-c:v"; "libx264"; "-preset"; "ultrafast"; "-crf"; "23"; "-pix_fmt"; "yuv420p";
      output_path self].
Proof.
  intros Hbg Ha Hc.
  rewrite build_command_passes, (audio_duration_none _ Ha).
  unfold validate, sequence. rewrite Hbg. unfold unset in Ha.
  apply negb_true_iff in Ha. rewrite Ha, Hc.
  destruct (captions self); [|done]. cbn.
  by destruct (caption_part _ _) as [extra label].
Qed.

(** What a successful build on a video background went through. *)
Lemma video_command_inv self file cmd :
  background self = Some (Video file) →
  build_command float_str self = Ok cmd →
  (∃ a mu d, audio_file self = Some a ∧ truthy a = true ∧
     media_utils self = Some mu ∧ duration (get_audio_info mu a) = Some d ∧
     truthy d = true) ∨
  (unset (audio_file self) = true ∧ truthy (captions self) = true).
Proof.
  intros Hbg. rewrite build_command_passes. unfold validate, audio_duration, unset.
  rewrite Hbg.
  destruct (audio_file self) as [a|]; cbn.
  - destruct (truthy a) eqn:Ht; cbn.
    + destruct (media_utils self) as [mu|]; [|done].
      destruct (duration _) as [d|] eqn:Hd; [|done]. cbn.
      destruct (truthy d) eqn:Htd; [|done]. intros _. left. by exists a, mu, d.
    + destruct (truthy (captions self)); [|done]. intros _. by right.
  - destruct (truthy (captions self)); [|done]. intros _. by right.
Qed.

(** C8.  On a video background: with an audio file of known duration [d]
    the background is declared by [-stream_loop -1 -t str(d) -i file];
    without audio it is the plain [-i file]; the one background filter
    stage is the scale to [width:height]; and without audio the command
    has neither an audio mapping nor audio codec flags. *)
Theorem video_background_command self file :
  background self = Some (Video file) →
  (∀ a mu d, audio_file self = Some a → truthy a = true →
     media_utils self = Some mu → duration (get_audio_info mu a) = Some d →
     truthy d = true →
     build_command float_str self =
     Ok [ffmpeg_path self; "-y"; "-stream_loop"; "-1"; "-t"; float_str d; "-i"; file;
         "-i"; a;
         "-filter_complex";
         join ";" (("[0]scale=" +:+ py_str float_str (width self) +:+ ":"
                    +:+ py_str float_str (height self) +:+ "[bg]")
                   :: (caption_part float_str self).1);
         "-map"; (caption_part float_str self).2; "-map"; "1:a";
         "-c:v"; "libx264"; "-preset"; "ultrafast"; "-crf"; "23"; "-pix_fmt"; "yuv420p";
         "-c:a"; "aac"; "-b:a"; "192k"; "-t"; float_str d; output_path self]) ∧
  (unset (audio_file self) = true → truthy (captions self) = true →
     build_command float_str self =
     Ok [ffmpeg_path self; "-y"; "-i"; file;
         "-filter_complex";
         join ";" (("[0]scale=" +:+ py_str float_str (width self) +:+ ":"
                    +:+ py_str float_str (height self) +:+ "[bg]")
                   :: (caption_part float_str self).1);
         "-map"; (caption_part float_str self).2;
         "-c:v"; "libx264"; "-preset"; "ultrafast"; "-crf"; "23"; "-pix_fmt"; "yuv420p";
         output_path self]) ∧
  (∀ cmd, build_command float_str self = Ok cmd →
     (∃ a mu d, audio_file self = Some a ∧ truthy a = true ∧
        media_utils self = Some mu ∧ duration (get_audio_info mu a) = Some d ∧
        truthy d = true) ∨
     (unset (audio_file self) = true ∧ truthy (captions self) = true)).
Proof.
  intros Hbg. split_and!.
  - intros a mu d. by apply video_command_audio.
  - by apply video_command_silent.
  - intros cmd. by apply (video_command_inv _ file).
Qed.

End VideoBackground.

(** The second worked example: a silent clip with subtitles. *)
Lemma video_background_command_witness :
  build_command FloatStr.float_repr subtitled_clip =
  Ok ["ffmpeg"; "-y"; "-i"; "clip.mp4";
      "-filter_complex";
      join ";" (("[0]scale=" +:+ "1280" +:+ ":" +:+ "720" +:+ "[bg]")
                :: ["[bg]subtitles=subs.srt[v]"]);
      "-map"; "[v]";
      "-c:v"; "libx264"; "-preset"; "ultrafast"; "-crf"; "23"; "-pix_fmt"; "yuv420p";
      "output.mp4"].
Proof.
  exact (proj1 (proj2 (video_background_command FloatStr.float_repr subtitled_clip
                         "clip.mp4" eq_refl)) eq_refl eq_refl).
Defined.

(** ** The caption stage *)

Section Captions.

Variable float_str : spec_float → string.

(** C6.  When a command is built and the captions are set but carry no
    file, the filter graph is the background stage alone -- neither a
    subtitle stage nor the pass-through copy is appended -- and the video
    mapping selects [[bg]]. *)
Theorem captions_without_file self cmd :
  build_command float_str self = Ok cmd →
  truthy (captions self) = true →
  truthy (dict_get (default ∅ (captions self)) "file") = false →
  match background self with
  | Some (Image file kb) =>
      ∃ a d n, cmd =
        [ffmpeg_path self; "-y"; "-loop"; "1"; "-t"; float_str d; "-i"; file; "-i"; a;
         "-filter_complex";
         join ";" [image_stage float_str self (zoom_to_top_left float_str (zoom_rate kb)) n];
         "-map"; "[bg]"; "-map"; "1:a";
         "-c:v"; "libx264"; "-preset"; "ultrafast"; "-crf"; "23"; "-pix_fmt"; "yuv420p";
         "-c:a"; "aac"; "-b:a"; "192k"; "-t"; float_str d; output_path self]
  | Some (Video file) =>
      (∃ a d, cmd =
        [ffmpeg_path self; "-y"; "-stream_loop"; "-1"; "-t"; float_str d; "-i"; file;
         "-i"; a;
         "-filter_complex"; join ";" [video_stage float_str self];
         "-map"; "[bg]"; "-map"; "1:a";
         "-c:v"; "libx264"; "-preset"; "ultrafast"; "-crf"; "23"; "-pix_fmt"; "yuv420p";
         "-c:a"; "aac"; "-b:a"; "192k"; "-t"; float_str d; output_path self]) ∨
      cmd =
        [ffmpeg_path self; "-y"; "-i"; file;
         "-filter_complex"; join ";" [video_stage float_str self];
         "-map"; "[bg]";
         "-c:v"; "libx264"; "-preset"; "ultrafast"; "-crf"; "23"; "-pix_fmt"; "yuv420p";
         output_path self]
  | None => False
  end.
Proof.
  intros Hcmd Hc Hf.
  assert (caption_part float_str self = ([], "[bg]")) as Hcp.
  { unfold caption_part. by rewrite Hc, Hf. }
  destruct (background self) as [[file kb|file]|] eqn:Hbg.
  - destruct (image_command_inv float_str _ _ _ _ Hbg Hcmd)
      as (a & mu & d & n & Ha & Ht & Hmu & Hd & Htd & Hn).
    rewrite (image_command float_str _ _ _ _ _ _ _ Hbg Ha Ht Hmu Hd Htd Hn), Hcp in Hcmd.
    injection Hcmd as <-. by exists a, d, (n + 1)%Z.
  - destruct (video_command_inv float_str _ _ _ Hbg Hcmd)
      as [(a & mu & d & Ha & Ht & Hmu & Hd & Htd)|[Ha _]].
    + rewrite (video_command_audio float_str _ _ _ _ _ Hbg Ha Ht Hmu Hd Htd), Hcp in Hcmd.
      injection Hcmd as <-. left. by exists a, d.
    + rewrite (video_command_silent float_str _ _ Hbg Ha Hc), Hcp in Hcmd.
      injection Hcmd as <-. by right.
  - unfold build_command in Hcmd. by rewrite Hbg in Hcmd.
Qed.

(** C7.  When a command is built and the captions are unset, the filter
    graph is the background stage followed by the one pass-through stage
    [[bg]copy[v]], and the video mapping selects [[v]]. *)
Theorem no_captions_copy_stage self cmd :
  build_command float_str self = Ok cmd →
  unset (captions self) = true →
  match background self with
  | Some (Image file kb) =>
      ∃ a d n, cmd =
        [ffmpeg_path self; "-y"; "-loop"; "1"; "-t"; float_str d; "-i"; file; "-i"; a;
         "-filter_complex";
         join ";" [image_stage float_str self (zoom_to_top_left float_str (zoom_rate kb)) n;
                   "[bg]copy[v]"];
         "-map"; "[v]"; "-map"; "1:a";
         "-c:v"; "libx264"; "-preset"; "ultrafast"; "-crf"; "23"; "-pix_fmt"; "yuv420p";
         "-c:a"; "aac"; "-b:a"; "192k"; "-t"; float_str d; output_path self]
  | Some (Video file) =>
      ∃ a d, cmd =
        [ffmpeg_path self; "-y"; "-stream_loop"; "-1"; "-t"; float_str d; "-i"; file;
         "-i"; a;
         "-filter_complex"; join ";" [video_stage float_str self; "[bg]copy[v]"];
         "-map"; "[v]"; "-map"; "1:a";
         "-c:v"; "libx264"; "-preset"; "ultrafast"; "-crf"; "23"; "-pix_fmt"; "yuv420p";
         "-c:a"; "aac"; "-b:a"; "192k"; "-t"; float_str d; output_path self]
  | None => False
  end.
Proof.
  intros Hcmd Hc. unfold unset in Hc. apply negb_true_iff in Hc.
  assert (caption_part float_str self = (["[bg]copy[v]"], "[v]")) as Hcp.
  { unfold caption_part. by rewrite Hc. }
  destruct (background self) as [[file kb|file]|] eqn:Hbg.
  - destruct (image_command_inv float_str _ _ _ _ Hbg Hcmd)
      as (a & mu & d & n & Ha & Ht & Hmu & Hd & Htd & Hn).
    rewrite (image_command float_str _ _ _ _ _ _ _ Hbg Ha Ht Hmu Hd Htd Hn), Hcp in Hcmd.
    injection Hcmd as <-. by exists a, d, (n + 1)%Z.
  - destruct (video_command_inv float_str _ _ _ Hbg Hcmd)
      as [(a & mu & d & Ha & Ht & Hmu & Hd & Htd)|[_ Hc']]; [|congruence].
    rewrite (video_command_audio float_str _ _ _ _ _ Hbg Ha Ht Hmu Hd Htd), Hcp in Hcmd.
    injection Hcmd as <-. by exists a, d.
  - unfold build_command in Hcmd. by rewrite Hbg in Hcmd.
Qed.

End Captions.

(** A silent clip whose captions carry no file keeps the label [[bg]]. *)
Lemma captions_without_file_witness :
  (∃ a d, [ "ffmpeg"; "-y"; "-i"; "clip.mp4"; "-filter_complex"; "[0]scale=1280:720[bg]";
            "-map"; "[bg]";
            "-c:v"; "libx264"; "-preset"; "ultrafast"; "-crf"; "23"; "-pix_fmt"; "yuv420p";
            "output.mp4" ] =
     [ "ffmpeg"; "-y"; "-stream_loop"; "-1"; "-t"; FloatStr.float_repr d; "-i"; "clip.mp4";
       "-i"; a; "-filter_complex"; "[0]scale=1280:720[bg]";
       "-map"; "[bg]"; "-map"; "1:a";
       "-c:v"; "libx264"; "-preset"; "ultrafast"; "-crf"; "23"; "-pix_fmt"; "yuv420p";
       "-c:a"; "aac"; "-b:a"; "192k"; "-t"; FloatStr.float_repr d; "output.mp4" ]) ∨
  [ "ffmpeg"; "-y"; "-i"; "clip.mp4"; "-filter_complex"; "[0]scale=1280:720[bg]";
    "-map"; "[bg]";
    "-c:v"; "libx264"; "-preset"; "ultrafast"; "-crf"; "23"; "-pix_fmt"; "yuv420p";
    "output.mp4" ] =
  [ "ffmpeg"; "-y"; "-i"; "clip.mp4"; "-filter_complex"; "[0]scale=1280:720[bg]";
    "-map"; "[bg]";
    "-c:v"; "libx264"; "-preset"; "ultrafast"; "-crf"; "23"; "-pix_fmt"; "yuv420p";
    "output.mp4" ].
Proof.
  exact (captions_without_file FloatStr.float_repr clip_without_subtitle_file
           [ "ffmpeg"; "-y"; "-i"; "clip.mp4"; "-filter_complex"; "[0]scale=1280:720[bg]";
             "-map"; "[bg]";
             "-c:v"; "libx264"; "-preset"; "ultrafast"; "-crf"; "23"; "-pix_fmt"; "yuv420p";
             "output.mp4" ]
           eq_refl eq_refl eq_refl).
Defined.

(** The narrated still has no captions and gets the copy stage. *)
Lemma no_captions_copy_stage_witness :
  ∃ a d n,
    [ "ffmpeg"; "-y"; "-loop"; "1"; "-t"; "10.0"; "-i"; "bg.jpg"; "-i"; "voice.mp3";
      "-filter_complex";
      "[0]scale=1080:-2,setsar=1:1,crop=1080:1920,zoompan=z='zoom+0.001':x=0:y=0:d=251:s=1080x1920:fps=25[bg];[bg]copy[v]";
      "-map"; "[v]"; "-map"; "1:a";
      "-c:v"; "libx264"; "-preset"; "ultrafast"; "-crf"; "23"; "-pix_fmt"; "yuv420p";
      "-c:a"; "aac"; "-b:a"; "192k"; "-t"; "10.0"; "output.mp4" ] =
    [ "ffmpeg"; "-y"; "-loop"; "1"; "-t"; FloatStr.float_repr d; "-i"; "bg.jpg"; "-i"; a;
      "-filter_complex";
      join ";" [ image_stage FloatStr.float_repr (narrated_still (Some ten_seconds))
                   (zoom_to_top_left FloatStr.float_repr (zoom_rate ∅)) n;
                 "[bg]copy[v]" ];
      "-map"; "[v]"; "-map"; "1:a";
      "-c:v"; "libx264"; "-preset"; "ultrafast"; "-crf"; "23"; "-pix_fmt"; "yuv420p";
      "-c:a"; "aac"; "-b:a"; "192k"; "-t"; FloatStr.float_repr d; "output.mp4" ].
Proof.
  exact (no_captions_copy_stage FloatStr.float_repr (narrated_still (Some ten_seconds)) _
           narrated_still_command eq_refl).
Defined.

(** ** Purity and the caption record *)

Section Purity.

Variable float_str : spec_float → string.
Variable query_fails : MediaUtils → string → option exn.

(** The method asks the inspector about the audio file only: two
    inspectors that report the same for that file give the same outcome. *)
Lemma build_command_inspector self mu1 mu2 :
  get_audio_info mu1 (default EmptyString (audio_file self)) =
  get_audio_info mu2 (default EmptyString (audio_file self)) →
  build_command float_str (set_media_utils mu1 self) =
  build_command float_str (set_media_utils mu2 self).
Proof.
  intros Hinfo. rewrite !build_command_passes.
  unfold validate, audio_duration, background_part, caption_part, sequence,
    image_stage, video_stage.
  cbn [background set_media_utils audio_file captions media_utils width height
       ffmpeg_path output_path].
  by rewrite Hinfo.
Qed.

(** What a call of the method does: it hands the object back as it was,
    and what it returns or raises is what the inspector raised, if the
    query of the audio file is reached and fails, and what the function
    [build_command] gives otherwise. *)
Lemma build_command_method_run self :
  build_command_method float_str query_fails self =
  (self,
   match validate self with
   | Ok _ =>
       if truthy (audio_file self) then
         match media_utils self with
         | Some mu =>
             match query_fails mu (default EmptyString (audio_file self)) with
             | Some e => Raise e
             | None => build_command float_str self
             end
         | None => build_command float_str self
         end
       else build_command float_str self
   | Raise _ => build_command float_str self
   end).
Proof.
  unfold build_command_method, build_command, validate, raise_if, and_then, branch,
    no_audio_file, background_is, call_get_audio_info, attr, raise, lift,
    mbind, method_bind, mret, method_ret.
  destruct self as [w h fp [[file kb|file]|] [[|c a]|] [m|] op [mu|]]; cbn;
    try (destruct (truthy m) eqn:Hm; repeat (progress (cbn; rewrite ?Hm))); try done.
  all: try (destruct (query_fails _ _); [done|]; cbn).
  all: try (destruct (duration _) as [d|]; [|done]; cbn;
            destruct (truthy d) eqn:Hd; repeat (progress (cbn; rewrite ?Hd, ?Hm));
            [|done]).
  all: try (destruct (int_of_float _); [|done]; repeat (progress (cbn; rewrite ?Hd, ?Hm))).
  all: try (destruct (truthy (dict_get _ _)) eqn:Hf;
            repeat (progress (cbn; rewrite ?Hd, ?Hm, ?Hf))); try reflexivity.
Qed.

(** C9.  A call of the method [build_command] hands the builder object
    back with every attribute as it was -- whether it returns or raises,
    and whether or not the inspector's query fails -- and a second call
    right after the first gives the same outcome, hence the same token
    sequence when the first succeeded.  When no query fails the outcome is
    that of the function [build_command].  The inspector enters through
    what it does for the audio file alone: were it another object at the
    second call, the outcome would still be the same as long as it answers
    and fails the same for that file. *)
Theorem build_command_idempotent self :
  (build_command_method float_str query_fails self).1 = self ∧
  (build_command_method float_str query_fails
     (build_command_method float_str query_fails self).1).1 = self ∧
  (build_command_method float_str query_fails
     (build_command_method float_str query_fails self).1).2 =
  (build_command_method float_str query_fails self).2 ∧
  ((∀ mu path, query_fails mu path = None) →
     (build_command_method float_str query_fails self).2 = build_command float_str self) ∧
  (∀ mu1 mu2,
     get_audio_info mu1 (default EmptyString (audio_file self)) =
     get_audio_info mu2 (default EmptyString (audio_file self)) →
     query_fails mu1 (default EmptyString (audio_file self)) =
     query_fails mu2 (default EmptyString (audio_file self)) →
     (build_command_method float_str query_fails
        (set_media_utils mu2
           (build_command_method float_str query_fails (set_media_utils mu1 self)).1)).2 =
     (build_command_method float_str query_fails (set_media_utils mu1 self)).2).
Proof.
  split_and!.
  - by rewrite build_command_method_run.
  - by rewrite !build_command_method_run.
  - by rewrite !build_command_method_run.
  - intros Hnever. rewrite build_command_method_run. cbn [snd].
    destruct (validate self); [|done].
    destruct (truthy (audio_file self)); [|done].
    destruct (media_utils self) as [mu|]; [|done].
    by rewrite Hnever.
  - intros mu1 mu2 Hinfo Hfails. rewrite !build_command_method_run. cbn [fst snd].
    change (validate (set_media_utils mu2 (set_media_utils mu1 self)))
      with (validate self).
    change (validate (set_media_utils mu1 self)) with (validate self).
    cbn [audio_file media_utils set_media_utils]. rewrite Hfails.
    change (build_command float_str (set_media_utils mu2 (set_media_utils mu1 self)))
      with (build_command float_str (set_media_utils mu2 self)).
    by rewrite (build_command_inspector self mu1 mu2 Hinfo).
Qed.

(** A configuration that has an entry for ["file"] absorbs the positional
    file. *)
Lemma config_file_absorbs (config : gmap string scalar) file_path v :
  config !! "file" = Some v →
  config ∪ {[ "file" := file_path ]} = config.
Proof.
  intros Hv. apply map_eq. intros k. rewrite lookup_union.
  destruct (decide (k = "file")) as [->|Hk].
  - by rewrite Hv, lookup_singleton_eq.
  - rewrite lookup_singleton_ne by done. by destruct (config !! k).
Qed.

(** C10.  When [config] has an entry [v] for ["file"], [set_captions]
    stores that entry under ["file"] and not the positional argument, and
    [build_command] goes by it: on each kind of builder that builds, the
    command has the subtitle stage [[bg]subtitles=v[v]] and maps [[v]]
    when [v] is true, and has no caption stage and maps [[bg]] when it is
    not -- whatever the positional argument was. *)
Theorem captions_config_file_overrides file_path config v self :
  config !! "file" = Some v →
  let extra :=
    if truthy v then ["[bg]subtitles=" +:+ py_str float_str v +:+ "[v]"] else [] in
  let label := if truthy v then "[v]" else "[bg]" in
  captions (set_captions file_path (Some config) self) = Some config ∧
  dict_get config "file" = v ∧
  (∀ file, background self = Some (Video file) → unset (audio_file self) = true →
     build_command float_str (set_captions file_path (Some config) self) =
     Ok [ffmpeg_path self; "-y"; "-i"; file;
         "-filter_complex"; join ";" (video_stage float_str self :: extra);
         "-map"; label;
         "-c:v"; "libx264"; "-preset"; "ultrafast"; "-crf"; "23"; "-pix_fmt"; "yuv420p";
         output_path self]) ∧
  (∀ file a mu d, background self = Some (Video file) →
     audio_file self = Some a → truthy a = true →
     media_utils self = Some mu → duration (get_audio_info mu a) = Some d →
     truthy d = true →
     build_command float_str (set_captions file_path (Some config) self) =
     Ok [ffmpeg_path self; "-y"; "-stream_loop"; "-1"; "-t"; float_str d; "-i"; file;
         "-i"; a;
         "-filter_complex"; join ";" (video_stage float_str self :: extra);
         "-map"; label; "-map"; "1:a";
         "-c:v"; "libx264"; "-preset"; "ultrafast"; "-crf"; "23"; "-pix_fmt"; "yuv420p";
         "-c:a"; "aac"; "-b:a"; "192k"; "-t"; float_str d; output_path self]) ∧
  (∀ file kb a mu d n, background self = Some (Image file kb) →
     audio_file self = Some a → truthy a = true →
     media_utils self = Some mu → duration (get_audio_info mu a) = Some d →
     truthy d = true →
     int_of_float (SFmul prec emax d (float_of_int 25)) = Ok n →
     build_command float_str (set_captions file_path (Some config) self) =
     Ok [ffmpeg_path self; "-y"; "-loop"; "1"; "-t"; float_str d; "-i"; file; "-i"; a;
         "-filter_complex";
         join ";" (image_stage float_str self
                     (zoom_to_top_left float_str (zoom_rate kb)) (n + 1)
                   :: extra);
         "-map"; label; "-map"; "1:a";
         "-c:v"; "libx264"; "-preset"; "ultrafast"; "-crf"; "23"; "-pix_fmt"; "yuv420p";
         "-c:a"; "aac"; "-b:a"; "192k"; "-t"; float_str d; output_path self]) ∧
  (∀ other,
     build_command float_str (set_captions other (Some config) self) =
     build_command float_str (set_captions file_path (Some config) self)).
Proof.
  intros Hv extra label.
  assert (∀ fp, set_captions fp (Some config) self =
                set_captions file_path (Some config) self) as Hsame.
  { intros fp. unfold set_captions. rewrite or_empty_some.
    by rewrite !(config_file_absorbs _ _ _ Hv). }
  assert (captions (set_captions file_path (Some config) self) = Some config) as Hc.
  { unfold set_captions. cbn [captions]. rewrite or_empty_some.
    by rewrite (config_file_absorbs _ _ _ Hv). }
  assert (truthy config = true) as Ht.
  { destruct (truthy config) eqn:E; [done|].
    apply truthy_dict_false in E. by rewrite E in Hv. }
  assert (truthy (captions (set_captions file_path (Some config) self)) = true) as Htc.
  { by rewrite Hc. }
  assert (caption_part float_str (set_captions file_path (Some config) self) =
          (extra, label)) as Hcp.
  { unfold caption_part. rewrite Htc, Hc. unfold dict_get. cbn [from_option id].
    rewrite Hv. cbn [from_option id]. subst extra label. by destruct (truthy v). }
  split_and!.
  - done.
  - unfold dict_get. by rewrite Hv.
  - intros file Hbg Ha.
    rewrite (video_command_silent float_str
               (set_captions file_path (Some config) self) file Hbg Ha Htc).
    by rewrite Hcp.
  - intros file a mu d Hbg Ha Hta Hmu Hd Htd.
    rewrite (video_command_audio float_str
               (set_captions file_path (Some config) self) file a mu d
               Hbg Ha Hta Hmu Hd Htd).
    by rewrite Hcp.
  - intros file kb a mu d n Hbg Ha Hta Hmu Hd Htd Hn.
    rewrite (image_command float_str
               (set_captions file_path (Some config) self) file kb a mu d n
               Hbg Ha Hta Hmu Hd Htd Hn).
    by rewrite Hcp.
  - intros other. by rewrite (Hsame other).
Qed.

End Purity.

(** The narrated still: the method hands it back and returns the command
    of the first worked example, twice. *)
Example build_command_method_narrated_still :
  build_command_method FloatStr.float_repr never_fails (narrated_still (Some ten_seconds)) =
  (narrated_still (Some ten_seconds),
   build_command FloatStr.float_repr (narrated_still (Some ten_seconds))).
Proof. vm_compute. reflexivity. Qed.

(** The narrated still, built twice in a row: the second call returns the
    command of the first worked example. *)
Lemma build_command_idempotent_witness :
  (build_command_method FloatStr.float_repr never_fails
     (build_command_method FloatStr.float_repr never_fails
        (narrated_still (Some ten_seconds))).1).2 =
  Ok ["ffmpeg"; "-y"; "-loop"; "1"; "-t"; "10.0"; "-i"; "bg.jpg"; "-i"; "voice.mp3";
      "-filter_complex";
      "[0]scale=1080:-2,setsar=1:1,crop=1080:1920,zoompan=z='zoom+0.001':x=0:y=0:d=251:s=1080x1920:fps=25[bg];[bg]copy[v]";
      "-map"; "[v]"; "-map"; "1:a";
      "-c:v"; "libx264"; "-preset"; "ultrafast"; "-crf"; "23"; "-pix_fmt"; "yuv420p";
      "-c:a"; "aac"; "-b:a"; "192k"; "-t"; "10.0"; "output.mp4"].
Proof.
  destruct (build_command_idempotent FloatStr.float_repr never_fails
              (narrated_still (Some ten_seconds))) as (_ & _ & H & _).
  rewrite H. vm_compute. reflexivity.
Defined.

(** A setter, by contrast, hands back another object. *)
Example setter_assigns :
  (setter (SetAudio "voice.mp3") (fresh (PyInt 1080) (PyInt 1920))).1 =
  set_audio "voice.mp3" (fresh (PyInt 1080) (PyInt 1920)) ∧
  (setter (SetAudio "voice.mp3") (fresh (PyInt 1080) (PyInt 1920))).1 ≠
  fresh (PyInt 1080) (PyInt 1920).
Proof. split; [reflexivity|discriminate]. Qed.

(** A configuration naming [other.srt] wins over the positional
    [subs.srt]: the clip is subtitled from [other.srt]. *)
Lemma captions_config_file_overrides_witness :
  build_command FloatStr.float_repr
    (set_captions (PyStr "subs.srt") (Some {[ "file" := PyStr "other.srt" ]})
       (set_background_video "clip.mp4" (fresh (PyInt 1280) (PyInt 720)))) =
  Ok ["ffmpeg"; "-y"; "-i"; "clip.mp4";
      "-filter_complex"; "[0]scale=1280:720[bg];[bg]subtitles=other.srt[v]";
      "-map"; "[v]";
      "-c:v"; "libx264"; "-preset"; "ultrafast"; "-crf"; "23"; "-pix_fmt"; "yuv420p";
      "output.mp4"].
Proof.
  pose proof (captions_config_file_overrides FloatStr.float_repr (PyStr "subs.srt")
                {[ "file" := PyStr "other.srt" ]} (PyStr "other.srt")
                (set_background_video "clip.mp4" (fresh (PyInt 1280) (PyInt 720)))
                eq_refl) as H.
  cbv zeta in H. destruct H as (_ & _ & H & _).
  exact (H "clip.mp4" eq_refl eq_refl).
Defined.

(** A configuration whose ["file"] is [None] wins as well: the positional
    [subs.srt] is not used and the label stays [[bg]]. *)
Example config_file_none_overrides :
  build_command FloatStr.float_repr
    (set_captions (PyStr "subs.srt") (Some {[ "file" := PyNone ]})
       (set_background_video "clip.mp4" (fresh (PyInt 1280) (PyInt 720)))) =
  Ok ["ffmpeg"; "-y"; "-i"; "clip.mp4";
      "-filter_complex"; "[0]scale=1280:720[bg]";
      "-map"; "[bg]";
      "-c:v"; "libx264"; "-preset"; "ultrafast"; "-crf"; "23"; "-pix_fmt"; "yuv420p";
      "output.mp4"].
Proof. vm_compute. reflexivity. Qed.

(** * Further properties of [build_command] *)

Section Outcomes.

Variable float_str : spec_float → string.
Variable query_fails : MediaUtils → string → option exn.

Lemma int_of_float_finite x : (∃ n, int_of_float x = Ok n) ↔ finite x = true.
Proof.
  destruct x; cbn; split; try done; try (by intros [n Hn]); by eexists.
Qed.

(** X1.  When [build_command] returns a command.  A background is set, and
    either there is no audio, the background is a video and captions are
    set, or there is an audio file, an inspector is attached and reports a
    nonzero duration for it -- whose product with the frame rate must be
    finite when the background is an image. *)
Theorem build_command_succeeds_iff self :
  (∃ cmd, build_command float_str self = Ok cmd) ↔
  ∃ bg, background self = Some bg ∧
    ((unset (audio_file self) = true ∧ is_video bg = true ∧
      truthy (captions self) = true) ∨
     (∃ a mu d, audio_file self = Some a ∧ truthy a = true ∧
        media_utils self = Some mu ∧ duration (get_audio_info mu a) = Some d ∧
        truthy d = true ∧
        (is_image bg = true → finite (SFmul prec emax d (float_of_int 25)) = true))).
Proof.
  split.
  - intros [cmd Hcmd].
    destruct (background self) as [[file kb|file]|] eqn:Hbg.
    + destruct (image_command_inv float_str _ _ _ _ Hbg Hcmd)
        as (a & mu & d & n & Ha & Ht & Hmu & Hd & Htd & Hn).
      eexists; split; [done|]. right. exists a, mu, d. split_and!; try done.
      intros _. apply int_of_float_finite. by exists n.
    + destruct (video_command_inv float_str _ _ _ Hbg Hcmd)
        as [(a & mu & d & Ha & Ht & Hmu & Hd & Htd)|[Ha Hc]].
      * eexists; split; [done|]. right. by exists a, mu, d.
      * eexists; split; [done|]. by left.
    + unfold build_command in Hcmd. by rewrite Hbg in Hcmd.
  - intros (bg & Hbg & [(Ha & Hv & Hc)|(a & mu & d & Ha & Ht & Hmu & Hd & Htd & Hfin)]).
    + destruct bg as [file kb|file]; [done|].
      eexists. by apply video_command_silent.
    + destruct bg as [file kb|file].
      * destruct (proj2 (int_of_float_finite _) (Hfin eq_refl)) as [n Hn].
        eexists. by apply (image_command float_str self file kb a mu d n).
      * eexists. by apply (video_command_audio float_str self file a mu d).
Qed.

(** The exceptions the body of [build_command] raises itself: three of
    its four validation errors, the two errors of the duration step, and
    the two errors of [int] on an infinite or NaN frame product. *)
Lemma build_command_own_exceptions self e :
  build_command float_str self = Raise e →
  e = ValueError msg_background ∨ e = ValueError msg_nothing ∨
  e = ValueError msg_image_audio ∨ e = ValueError msg_media_manager ∨
  e = ValueError msg_duration ∨
  e = OverflowError "cannot convert float infinity to integer" ∨
  e = ValueError "cannot convert float NaN to integer".
Proof.
  intros He.
  rewrite build_command_passes in He. unfold validate, audio_duration in He.
  destruct (background self) as [[file kb|file]|]; [..|injection He as <-; tauto];
    destruct (audio_file self) as [a|], (captions self) as [m|]; cbn in He;
    try (destruct (truthy a); cbn in He);
    try (destruct (truthy m); cbn in He);
    try (injection He as <-; tauto);
    try (by destruct (caption_part _ _)).
  all: destruct (media_utils self) as [mu|]; [|injection He as <-; tauto].
  all: destruct (duration _) as [d|]; [|injection He as <-; tauto]; cbn in He.
  all: destruct (truthy d); [|injection He as <-; tauto]; cbn in He.
  all: try (by destruct (caption_part _ _)).
  all: destruct (SFmul _ _ _ _); cbn in He;
    try (by destruct (caption_part _ _)); injection He as <-; tauto.
Qed.

(** X2.  The exceptions a call of [build_command] can end in.  The query
    of the inspector is outside any [try]: when the validation passes, an
    audio file is set and an inspector is attached, an exception the query
    raises leaves the method as it is.  Every other exception is one of
    seven: three of the four validation errors, the two errors of the
    duration step, and the two errors of [int] on an infinite or NaN frame
    product; the fourth validation error (video background without audio
    or captions) is never raised, the second check fires first, nor is a
    [TypeError] or a [KeyError] raised by the body.  In every case the
    builder is left as it was. *)
Theorem build_command_raises_only self :
  (∀ bg a mu e, background self = Some bg → audio_file self = Some a →
     truthy a = true → media_utils self = Some mu → query_fails mu a = Some e →
     build_command_method float_str query_fails self = (self, Raise e)) ∧
  (∀ s e, build_command_method float_str query_fails self = (s, Raise e) →
     s = self ∧
     ((∃ bg a mu, background self = Some bg ∧ audio_file self = Some a ∧
         truthy a = true ∧ media_utils self = Some mu ∧ query_fails mu a = Some e) ∨
      (build_command float_str self = Raise e ∧
       (e = ValueError msg_background ∨ e = ValueError msg_nothing ∨
        e = ValueError msg_image_audio ∨ e = ValueError msg_media_manager ∨
        e = ValueError msg_duration ∨
        e = OverflowError "cannot convert float infinity to integer" ∨
        e = ValueError "cannot convert float NaN to integer") ∧
       e ≠ ValueError msg_video_audio ∧ (∀ msg, e ≠ TypeError msg) ∧
       (∀ key, e ≠ KeyError key) ∧ (∀ class msg, e ≠ Exception class msg)))).
Proof.
  assert (∀ e, build_command float_str self = Raise e →
            build_command float_str self = Raise e ∧
            (e = ValueError msg_background ∨ e = ValueError msg_nothing ∨
             e = ValueError msg_image_audio ∨ e = ValueError msg_media_manager ∨
             e = ValueError msg_duration ∨
             e = OverflowError "cannot convert float infinity to integer" ∨
             e = ValueError "cannot convert float NaN to integer") ∧
            e ≠ ValueError msg_video_audio ∧ (∀ msg, e ≠ TypeError msg) ∧
            (∀ key, e ≠ KeyError key) ∧ (∀ class msg, e ≠ Exception class msg)) as Hown.
  { intros e He. pose proof (build_command_own_exceptions self e He) as Hcases.
    split; [done|]. split; [done|].
    split_and!; [intros ->|intros msg ->|intros key ->|intros class msg ->];
      repeat (destruct Hcases as [Hcases|Hcases]; [discriminate|]); discriminate. }
  split.
  - intros bg a mu e Hbg Ha Ht Hmu Hq.
    rewrite (build_command_method_run float_str query_fails),
      (validate_with_audio _ _ _ Hbg Ha Ht), Ha, Hmu.
    cbn [from_option id]. change (truthy (Some a)) with (truthy a).
    by rewrite Ht, Hq.
  - intros s e He.
    rewrite (build_command_method_run float_str query_fails) in He.
    injection He as <- He. split; [done|].
    destruct (validate self) as [bg|e0] eqn:Hval; [|right; by apply Hown].
    destruct (audio_file self) as [a|] eqn:Ha; [|right; by apply Hown].
    change (truthy (Some a)) with (truthy a) in He.
    destruct (truthy a) eqn:Ht; [|right; by apply Hown].
    destruct (media_utils self) as [mu|] eqn:Hmu; [|right; by apply Hown].
    cbn [from_option id] in He.
    destruct (query_fails mu a) as [e1|] eqn:Hq; [|right; by apply Hown].
    injection He as <-. left.
    unfold validate in Hval. destruct (background self) as [bg0|]; [|done].
    by exists bg0, a, mu.
Qed.

End Outcomes.

(** The narrated still with an endless audio file: the query succeeds,
    and the exception is the [OverflowError] of [int], raised by the body
    after the validation, the duration step and the frame product. *)
Lemma build_command_raises_only_witness :
  build_command_method FloatStr.float_repr never_fails
    (narrated_still (Some (S754_infinity false))) =
  (narrated_still (Some (S754_infinity false)),
   Raise (OverflowError "cannot convert float infinity to integer")) ∧
  build_command FloatStr.float_repr (narrated_still (Some (S754_infinity false))) =
  Raise (OverflowError "cannot convert float infinity to integer").
Proof.
  split; [reflexivity|].
  destruct (proj2 (build_command_raises_only FloatStr.float_repr never_fails
                     (narrated_still (Some (S754_infinity false))))
              (narrated_still (Some (S754_infinity false)))
              (OverflowError "cannot convert float infinity to integer") eq_refl)
    as [_ [(bg & a & mu & _ & _ & _ & _ & Hq)|[H _]]].
  - discriminate Hq.
  - exact H.
Defined.

(** An inspector that cannot read the audio file: its exception leaves
    [build_command], and the builder is as it was. *)
Example inspector_failure_propagates :
  build_command_method FloatStr.float_repr
    (λ _ path, Some (Exception "RuntimeError" ("cannot probe " +:+ path)))
    (narrated_still (Some ten_seconds)) =
  (narrated_still (Some ten_seconds),
   Raise (Exception "RuntimeError" "cannot probe voice.mp3")).
Proof. vm_compute. reflexivity. Qed.

(** Without an audio file the same inspector is not asked. *)
Example inspector_failure_unreached :
  build_command_method FloatStr.float_repr
    (λ _ path, Some (Exception "RuntimeError" ("cannot probe " +:+ path)))
    subtitled_clip =
  (subtitled_clip, build_command FloatStr.float_repr subtitled_clip).
Proof. vm_compute. reflexivity. Qed.

Section Layout.

Variable float_str : spec_float → string.

(** X3.  With captions that carry a file, the filter graph is the background
    stage followed by one subtitle stage reading [[bg]] and writing [[v]],
    and the video mapping selects [[v]]. *)
Theorem captions_with_file self cmd :
  build_command float_str self = Ok cmd →
  truthy (captions self) = true →
  truthy (dict_get (default ∅ (captions self)) "file") = true →
  match background self with
  | Some (Image file kb) =>
      ∃ a d n, cmd =
        [ffmpeg_path self; "-y"; "-loop"; "1"; "-t"; float_str d; "-i"; file; "-i"; a;
         "-filter_complex";
         join ";" [image_stage float_str self (zoom_to_top_left float_str (zoom_rate kb)) n;
                   "[bg]subtitles="
                   +:+ py_str float_str (dict_get (default ∅ (captions self)) "file")
                   +:+ "[v]"];
         "-map"; "[v]"; "-map"; "1:a";
         "-c:v"; "libx264"; "-preset"; "ultrafast"; "-crf"; "23"; "-pix_fmt"; "yuv420p";
         "-c:a"; "aac"; "-b:a"; "192k"; "-t"; float_str d; output_path self]
  | Some (Video file) =>
      (∃ a d, cmd =
        [ffmpeg_path self; "-y"; "-stream_loop"; "-1"; "-t"; float_str d; "-i"; file;
         "-i"; a;
         "-filter_complex";
         join ";" [video_stage float_str self;
                   "[bg]subtitles="
                   +:+ py_str float_str (dict_get (default ∅ (captions self)) "file")
                   +:+ "[v]"];
         "-map"; "[v]"; "-map"; "1:a";
         "-c:v"; "libx264"; "-preset"; "ultrafast"; "-crf"; "23"; "-pix_fmt"; "yuv420p";
         "-c:a"; "aac"; "-b:a"; "192k"; "-t"; float_str d; output_path self]) ∨
      cmd =
        [ffmpeg_path self; "-y"; "-i"; file;
         "-filter_complex";
         join ";" [video_stage float_str self;
                   "[bg]subtitles="
                   +:+ py_str float_str (dict_get (default ∅ (captions self)) "file")
                   +:+ "[v]"];
         "-map"; "[v]";
         "-c:v"; "libx264"; "-preset"; "ultrafast"; "-crf"; "23"; "-pix_fmt"; "yuv420p";
         output_path self]
  | None => False
  end.
Proof.
  intros Hcmd Hc Hf.
  assert (caption_part float_str self =
          (["[bg]subtitles="
            +:+ py_str float_str (dict_get (default ∅ (captions self)) "file")
            +:+ "[v]"], "[v]")) as Hcp.
  { unfold caption_part. by rewrite Hc, Hf. }
  destruct (background self) as [[file kb|file]|] eqn:Hbg.
  - destruct (image_command_inv float_str _ _ _ _ Hbg Hcmd)
      as (a & mu & d & n & Ha & Ht & Hmu & Hd & Htd & Hn).
    rewrite (image_command float_str _ _ _ _ _ _ _ Hbg Ha Ht Hmu Hd Htd Hn), Hcp in Hcmd.
    injection Hcmd as <-. by exists a, d, (n + 1)%Z.
  - destruct (video_command_inv float_str _ _ _ Hbg Hcmd)
      as [(a & mu & d & Ha & Ht & Hmu & Hd & Htd)|[Ha _]].
    + rewrite (video_command_audio float_str _ _ _ _ _ Hbg Ha Ht Hmu Hd Htd), Hcp in Hcmd.
      injection Hcmd as <-. left. by exists a, d.
    + rewrite (video_command_silent float_str _ _ Hbg Ha Hc), Hcp in Hcmd.
      injection Hcmd as <-. by right.
  - unfold build_command in Hcmd. by rewrite Hbg in Hcmd.
Qed.

(** X4.  The layout of every command that is built: the encoder path and
    [-y] come first and the output path last; with audio the command has
    31 tokens and [-filter_complex] is the eleventh, without audio it has
    17 and [-filter_complex] is the fifth; the filter graph is always
    there, and two places after it [-map] selects [[bg]] or [[v]]. *)
Theorem command_layout self cmd :
  build_command float_str self = Ok cmd →
  let k := if truthy (audio_file self) then 10 else 4 in
  length cmd = (if truthy (audio_file self) then 31 else 17) ∧
  cmd !! 0 = Some (ffmpeg_path self) ∧ cmd !! 1 = Some "-y" ∧
  last cmd = Some (output_path self) ∧
  cmd !! k = Some "-filter_complex" ∧ cmd !! (k + 2) = Some "-map" ∧
  (cmd !! (k + 3) = Some "[bg]" ∨ cmd !! (k + 3) = Some "[v]").
Proof.
  intros Hcmd.
  assert ((caption_part float_str self).2 = "[bg]" ∨
          (caption_part float_str self).2 = "[v]") as Hlabel.
  { unfold caption_part.
    destruct (truthy (captions self)); [|by right].
    destruct (truthy (dict_get _ _)); [by right|by left]. }
  destruct (background self) as [[file kb|file]|] eqn:Hbg.
  - destruct (image_command_inv float_str _ _ _ _ Hbg Hcmd)
      as (a & mu & d & n & Ha & Ht & Hmu & Hd & Htd & Hn).
    rewrite (image_command float_str _ _ _ _ _ _ _ Hbg Ha Ht Hmu Hd Htd Hn) in Hcmd.
    injection Hcmd as <-. rewrite Ha. cbn. rewrite Ht. cbn. split_and!; try done.
    destruct Hlabel as [->| ->]; [by left|by right].
  - destruct (video_command_inv float_str _ _ _ Hbg Hcmd)
      as [(a & mu & d & Ha & Ht & Hmu & Hd & Htd)|[Ha Hc]].
    + rewrite (video_command_audio float_str _ _ _ _ _ Hbg Ha Ht Hmu Hd Htd) in Hcmd.
      injection Hcmd as <-. rewrite Ha. cbn. rewrite Ht. cbn. split_and!; try done.
      destruct Hlabel as [->| ->]; [by left|by right].
    + rewrite (video_command_silent float_str _ _ Hbg Ha Hc) in Hcmd.
      injection Hcmd as <-. unfold unset in Ha. apply negb_true_iff in Ha.
      rewrite Ha. cbn. split_and!; try done.
      destruct Hlabel as [->| ->]; [by left|by right].
  - unfold build_command in Hcmd. by rewrite Hbg in Hcmd.
Qed.

End Layout.

(** The subtitled clip of the second worked example. *)
Lemma captions_with_file_witness :
  (∃ a d, [ "ffmpeg"; "-y"; "-i"; "clip.mp4"; "-filter_complex";
            "[0]scale=1280:720[bg];[bg]subtitles=subs.srt[v]"; "-map"; "[v]";
            "-c:v"; "libx264"; "-preset"; "ultrafast"; "-crf"; "23"; "-pix_fmt"; "yuv420p";
            "output.mp4" ] =
     [ "ffmpeg"; "-y"; "-stream_loop"; "-1"; "-t"; FloatStr.float_repr d; "-i"; "clip.mp4";
       "-i"; a; "-filter_complex"; "[0]scale=1280:720[bg];[bg]subtitles=subs.srt[v]";
       "-map"; "[v]"; "-map"; "1:a";
       "-c:v"; "libx264"; "-preset"; "ultrafast"; "-crf"; "23"; "-pix_fmt"; "yuv420p";
       "-c:a"; "aac"; "-b:a"; "192k"; "-t"; FloatStr.float_repr d; "output.mp4" ]) ∨
  [ "ffmpeg"; "-y"; "-i"; "clip.mp4"; "-filter_complex";
    "[0]scale=1280:720[bg];[bg]subtitles=subs.srt[v]"; "-map"; "[v]";
    "-c:v"; "libx264"; "-preset"; "ultrafast"; "-crf"; "23"; "-pix_fmt"; "yuv420p";
    "output.mp4" ] =
  [ "ffmpeg"; "-y"; "-i"; "clip.mp4"; "-filter_complex";
    "[0]scale=1280:720[bg];[bg]subtitles=subs.srt[v]"; "-map"; "[v]";
    "-c:v"; "libx264"; "-preset"; "ultrafast"; "-crf"; "23"; "-pix_fmt"; "yuv420p";
    "output.mp4" ].
Proof.
  exact (captions_with_file FloatStr.float_repr subtitled_clip _
           subtitled_clip_command eq_refl eq_refl).
Defined.

(** The narrated still of the first worked example has 31 tokens. *)
Lemma command_layout_witness :
  ∃ cmd, build_command FloatStr.float_repr (narrated_still (Some ten_seconds)) = Ok cmd ∧
    length cmd = 31 ∧ cmd !! 10 = Some "-filter_complex" ∧ cmd !! 13 = Some "[v]" ∧
    last cmd = Some "output.mp4".
Proof.
  eexists. split; [exact narrated_still_command|].
  pose proof (command_layout FloatStr.float_repr (narrated_still (Some ten_seconds)) _
                narrated_still_command) as H.
  cbv zeta in H. destruct H as (Hlen & _ & _ & Hlast & Hfc & _ & _).
  split_and!; [exact Hlen|exact Hfc|reflexivity|exact Hlast].
Defined.

Section NonInterference.

Variable float_str : spec_float → string.

Lemma sequence_output_path self p d inputs stages label :
  sequence float_str (set_output_path p self) d inputs stages label =
  removelast (sequence float_str self d inputs stages label) ++ [p].
Proof.
  unfold sequence. cbn [ffmpeg_path audio_file output_path set_output_path].
  rewrite !app_assoc. by rewrite removelast_last.
Qed.

(** X5.  The output path is the last token and nothing else: with another
    output path the method raises the same exception, or returns the same
    command with the last token replaced. *)
Theorem output_path_only_last_token self p :
  match build_command float_str self with
  | Ok cmd =>
      build_command float_str (set_output_path p self) = Ok (removelast cmd ++ [p]) ∧
      last cmd = Some (output_path self)
  | Raise e => build_command float_str (set_output_path p self) = Raise e
  end.
Proof.
  rewrite !build_command_passes.
  change (validate (set_output_path p self)) with (validate self).
  change (audio_duration (set_output_path p self)) with (audio_duration self).
  change (caption_part float_str (set_output_path p self))
    with (caption_part float_str self).
  destruct (validate self) as [bg|e]; [|done]. cbn [mbind result_bind].
  destruct (audio_duration self) as [d|e]; [|done]. cbn [mbind result_bind].
  change (background_part float_str (set_output_path p self) bg d)
    with (background_part float_str self bg d).
  destruct (background_part float_str self bg d) as [[inputs stage]|e]; [|done].
  cbn [mbind result_bind]. destruct (caption_part float_str self) as [extra label].
  rewrite sequence_output_path. split; [done|].
  unfold sequence. rewrite !app_assoc. apply last_snoc.
Qed.

(** X6.  Without an audio file the inspector is not consulted: attaching one,
    or another one, changes nothing. *)
Theorem inspector_unused_without_audio self mu :
  unset (audio_file self) = true →
  build_command float_str (set_media_utils mu self) = build_command float_str self.
Proof.
  intros Ha. unfold unset in Ha. apply negb_true_iff in Ha.
  rewrite !build_command_passes.
  change (validate (set_media_utils mu self)) with (validate self).
  destruct (validate self) as [bg|e]; [|done]. cbn [mbind result_bind].
  unfold audio_duration. cbn [audio_file set_media_utils]. rewrite Ha.
  reflexivity.
Qed.

End NonInterference.

Lemma inspector_unused_without_audio_witness :
  build_command FloatStr.float_repr
    (set_media_utils (inspector (Some ten_seconds)) subtitled_clip) =
  build_command FloatStr.float_repr subtitled_clip.
Proof.
  exact (inspector_unused_without_audio FloatStr.float_repr subtitled_clip
           (inspector (Some ten_seconds)) eq_refl).
Defined.

(** ** Durations the duration check lets through *)

Section OddDurations.

Variable float_str : spec_float → string.

(** X7.  A NaN duration is true for [not audio_duration], so the duration
    check passes: a video background is built with [-t str(nan)], and an
    image background fails later, in [int], with a [ValueError] that is
    not the duration error. *)
Theorem nan_duration_passes_check self a mu :
  audio_file self = Some a → truthy a = true →
  media_utils self = Some mu → duration (get_audio_info mu a) = Some S754_nan →
  match background self with
  | Some (Image file kb) =>
      build_command float_str self =
        Raise (ValueError "cannot convert float NaN to integer") ∧
      duration_unavailable (ValueError "cannot convert float NaN to integer") = false
  | Some (Video file) =>
      build_command float_str self =
      Ok [ffmpeg_path self; "-y"; "-stream_loop"; "-1"; "-t"; float_str S754_nan;
          "-i"; file; "-i"; a;
          "-filter_complex";
          join ";" (video_stage float_str self :: (caption_part float_str self).1);
          "-map"; (caption_part float_str self).2; "-map"; "1:a";
          "-c:v"; "libx264"; "-preset"; "ultrafast"; "-crf"; "23"; "-pix_fmt"; "yuv420p";
          "-c:a"; "aac"; "-b:a"; "192k"; "-t"; float_str S754_nan; output_path self]
  | None => build_command float_str self = Raise (ValueError msg_background)
  end.
Proof.
  intros Ha Ht Hmu Hd.
  destruct (background self) as [[file kb|file]|] eqn:Hbg.
  - split; [|reflexivity].
    rewrite build_command_passes, (validate_with_audio _ _ _ Hbg Ha Ht).
    by rewrite (audio_duration_ok _ _ _ _ Ha Ht Hmu Hd eq_refl).
  - by apply (video_command_audio float_str self file a mu).
  - unfold build_command. by rewrite Hbg.
Qed.

(** [int] rounds toward zero. *)
Lemma int_of_float_truncation x n : int_of_float x = Ok n ↔ truncation x = Some n.
Proof.
  destruct x as [s|s| |s m e]; cbn; try (split; congruence).
  assert (cond_Zopp s (Z.shiftl (Z.pos m) e) =
          if (0 <=? e)%Z then (cond_Zopp s (Z.pos m) * 2 ^ e)%Z
          else (cond_Zopp s (Z.pos m) ÷ 2 ^ (- e))%Z) as ->;
    [|split; congruence].
  destruct (Z.leb_spec 0 e) as [He|He].
  - rewrite Z.shiftl_mul_pow2 by lia. destruct s; cbn [cond_Zopp]; lia.
  - rewrite Z.shiftl_div_pow2 by lia.
    assert (0 < 2 ^ (- e))%Z as Hpow by (apply Z.pow_pos_nonneg; lia).
    rewrite <- Z.quot_div_nonneg by lia.
    destruct s; cbn [cond_Zopp]; [|done].
    rewrite Z.quot_opp_l by lia. done.
Qed.

(** On a float that is not positive, rounding toward zero is rounding
    upward, and gives no positive number. *)
Lemma truncation_negative m e n :
  truncation (S754_finite true m e) = Some n →
  ceiling (S754_finite true m e) = Some n ∧ (n <= 0)%Z.
Proof.
  unfold truncation, ceiling, floor, SFopp. cbn [negb cond_Zopp fmap option_fmap option_map].
  intros [= <-].
  destruct (Z.leb_spec 0 e) as [He|He].
  - split; [f_equal; lia|].
    assert (0 < 2 ^ e)%Z by (apply Z.pow_pos_nonneg; lia). nia.
  - assert (0 < 2 ^ (- e))%Z as Hpow by (apply Z.pow_pos_nonneg; lia).
    rewrite Z.quot_opp_l by lia. rewrite Z.quot_div_nonneg by lia.
    split; [done|].
    assert (0 <= Z.pos m / 2 ^ (- e))%Z by (apply Z.div_pos; lia). lia.
Qed.

(** X8.  A negative duration passes the duration check as well.  On an image
    background the command is built, with the negative value after both
    [-t] and a zoompan length [n + 1], where [n] is the frame product
    rounded toward zero: for a negative product that is its ceiling, which
    is not positive, and not its floor unless the product is whole. *)
Theorem negative_duration_passes_check self file kb a mu d :
  background self = Some (Image file kb) →
  audio_file self = Some a → truthy a = true →
  media_utils self = Some mu → duration (get_audio_info mu a) = Some d →
  SFltb d (S754_zero false) = true →
  finite (SFmul prec emax d (float_of_int 25)) = true →
  ∃ n, truncation (SFmul prec emax d (float_of_int 25)) = Some n ∧
    ceiling (SFmul prec emax d (float_of_int 25)) = Some n ∧
    (n <= 0)%Z ∧
    (∀ f, floor (SFmul prec emax d (float_of_int 25)) = Some f →
       (f <= n)%Z ∧ (f = n ∨ f = n - 1)%Z) ∧
    build_command float_str self =
    Ok [ffmpeg_path self; "-y"; "-loop"; "1"; "-t"; float_str d; "-i"; file; "-i"; a;
        "-filter_complex";
        join ";" (image_stage float_str self (zoom_to_top_left float_str (zoom_rate kb))
                    (n + 1)
                  :: (caption_part float_str self).1);
        "-map"; (caption_part float_str self).2; "-map"; "1:a";
        "-c:v"; "libx264"; "-preset"; "ultrafast"; "-crf"; "23"; "-pix_fmt"; "yuv420p";
        "-c:a"; "aac"; "-b:a"; "192k"; "-t"; float_str d; output_path self].
Proof.
  intros Hbg Ha Ht Hmu Hd Hneg Hfin.
  assert (truthy d = true) as Htd by (by destruct d as [| | |[]]).
  destruct (proj2 (int_of_float_finite _) Hfin) as [n Hn].
  pose proof (proj1 (int_of_float_truncation _ _) Hn) as Htr.
  assert (ceiling (SFmul prec emax d (float_of_int 25)) = Some n ∧ (n <= 0)%Z ∧
          ∀ f, floor (SFmul prec emax d (float_of_int 25)) = Some f →
               (f <= n)%Z ∧ (f = n ∨ f = n - 1)%Z) as (Hc & Hn0 & Hf).
  { destruct (SFmul prec emax d (float_of_int 25)) as [s|s| |s m e] eqn:Hp;
      try discriminate.
    - injection Htr as <-. split; [by destruct s|]. split; [done|].
      intros f [= <-]. lia.
    - rewrite float_of_int_25 in Hp.
      destruct d as [sd|[]| |[] md ed]; try discriminate.
      apply SFmul_finite_sign in Hp. subst s.
      destruct (truncation_negative _ _ _ Htr) as [Hc Hn0].
      split; [done|]. split; [done|].
      intros f Hf. unfold truncation in Htr. unfold floor in Hf.
      cbn [cond_Zopp] in Htr, Hf.
      destruct (Z.leb_spec 0 e) as [He|He].
      + injection Htr as <-. injection Hf as <-. lia.
      + assert (0 < 2 ^ (- e))%Z as Hpow by (apply Z.pow_pos_nonneg; lia).
        injection Htr as <-. injection Hf as <-.
        rewrite Z.quot_opp_l by lia. rewrite Z.quot_div_nonneg by lia.
        destruct (Z.eq_dec (Z.pos m mod 2 ^ (- e))%Z 0%Z) as [Hz|Hnz].
        * rewrite Z.div_opp_l_z by lia. lia.
        * rewrite Z.div_opp_l_nz by lia. lia. }
  exists n. split; [done|]. split; [done|]. split; [done|]. split; [done|].
  by apply (image_command float_str self file kb a mu d n).
Qed.

End OddDurations.

(** The narrated still with an inspector that reports NaN. *)
Lemma nan_duration_passes_check_witness :
  build_command FloatStr.float_repr (narrated_still (Some S754_nan)) =
    Raise (ValueError "cannot convert float NaN to integer") ∧
  duration_unavailable (ValueError "cannot convert float NaN to integer") = false.
Proof.
  exact (nan_duration_passes_check FloatStr.float_repr (narrated_still (Some S754_nan))
           "voice.mp3" (inspector (Some S754_nan)) eq_refl eq_refl eq_refl eq_refl).
Defined.

(** The narrated still with an inspector that reports [-0.5]: the frame
    product is [-12.5], rounded toward zero [-12], and the zoompan length
    is [-11]. *)
Lemma negative_duration_passes_check_witness :
  ∃ n,
    truncation (SFmul prec emax (S754_finite true 4503599627370496 (-53)) (float_of_int 25))
      = Some n ∧
    ceiling (SFmul prec emax (S754_finite true 4503599627370496 (-53)) (float_of_int 25))
      = Some n ∧
    (n <= 0)%Z ∧
    (∀ f, floor (SFmul prec emax (S754_finite true 4503599627370496 (-53))
                   (float_of_int 25)) = Some f →
       (f <= n)%Z ∧ (f = n ∨ f = n - 1)%Z) ∧
    build_command FloatStr.float_repr
      (narrated_still (Some (S754_finite true 4503599627370496 (-53)))) =
    Ok ["ffmpeg"; "-y"; "-loop"; "1"; "-t";
        FloatStr.float_repr (S754_finite true 4503599627370496 (-53));
        "-i"; "bg.jpg"; "-i"; "voice.mp3";
        "-filter_complex";
        join ";" (image_stage FloatStr.float_repr
                    (narrated_still (Some (S754_finite true 4503599627370496 (-53))))
                    (zoom_to_top_left FloatStr.float_repr (zoom_rate ∅)) (n + 1)
                  :: ["[bg]copy[v]"]);
        "-map"; "[v]"; "-map"; "1:a";
        "-c:v"; "libx264"; "-preset"; "ultrafast"; "-crf"; "23"; "-pix_fmt"; "yuv420p";
        "-c:a"; "aac"; "-b:a"; "192k"; "-t";
        FloatStr.float_repr (S754_finite true 4503599627370496 (-53)); "output.mp4"].
Proof.
  exact (negative_duration_passes_check FloatStr.float_repr
           (narrated_still (Some (S754_finite true 4503599627370496 (-53))))
           "bg.jpg" ∅ "voice.mp3"
           (inspector (Some (S754_finite true 4503599627370496 (-53))))
           (S754_finite true 4503599627370496 (-53))
           eq_refl eq_refl eq_refl eq_refl eq_refl eq_refl eq_refl).
Defined.

(** At [-0.5] the three roundings of the frame product [-12.5]: [int] and
    the ceiling give [-12], the floor [-13]. *)
Example negative_frame_product :
  int_of_float (SFmul prec emax (S754_finite true 4503599627370496 (-53)) (float_of_int 25))
    = Ok (-12)%Z ∧
  truncation (SFmul prec emax (S754_finite true 4503599627370496 (-53)) (float_of_int 25))
    = Some (-12)%Z ∧
  ceiling (SFmul prec emax (S754_finite true 4503599627370496 (-53)) (float_of_int 25))
    = Some (-12)%Z ∧
  floor (SFmul prec emax (S754_finite true 4503599627370496 (-53)) (float_of_int 25))
    = Some (-13)%Z.
Proof. vm_compute. done. Qed.

Example negative_duration_command :
  build_command FloatStr.float_repr
    (narrated_still (Some (S754_finite true 4503599627370496 (-53)))) =
  Ok ["ffmpeg"; "-y"; "-loop"; "1"; "-t"; "-0.5"; "-i"; "bg.jpg"; "-i"; "voice.mp3";
      "-filter_complex";
      "[0]scale=1080:-2,setsar=1:1,crop=1080:1920,zoompan=z='zoom+0.001':x=0:y=0:d=-11:s=1080x1920:fps=25[bg];[bg]copy[v]";
      "-map"; "[v]"; "-map"; "1:a";
      "-c:v"; "libx264"; "-preset"; "ultrafast"; "-crf"; "23"; "-pix_fmt"; "yuv420p";
      "-c:a"; "aac"; "-b:a"; "192k"; "-t"; "-0.5"; "output.mp4"].
Proof. vm_compute. reflexivity. Qed.

(** * Chains of setter calls *)

Lemma attribute_eqb_eq x y : attribute_eqb x y = true ↔ x = y.
Proof. destruct x, y; cbn; split; congruence. Qed.

Lemma chain_cons c calls self : chain (c :: calls) self = chain calls (perform c self).
Proof. reflexivity. Qed.

Lemma chain_app calls1 calls2 self :
  chain (calls1 ++ calls2) self = chain calls2 (chain calls1 self).
Proof. unfold chain. apply foldl_app. Qed.

(** Two calls that assign different attributes can be swapped. *)
Lemma perform_swap c1 c2 self :
  assigns c1 ≠ assigns c2 →
  perform c1 (perform c2 self) = perform c2 (perform c1 self).
Proof. destruct c1, c2; cbn; intros H; try done; by destruct H. Qed.

(** A call overwrites what an earlier call on the same attribute
    assigned. *)
Lemma perform_overwrite c1 c2 self :
  assigns c1 = assigns c2 →
  perform c2 (perform c1 self) = perform c2 self.
Proof. destruct c1, c2; cbn; intros H; try done. Qed.

(** X9.  No setter touches the dimensions or the encoder path: after any chain
    of calls they are what the constructor stored. *)
Theorem chain_keeps_dimensions calls self :
  width (chain calls self) = width self ∧
  height (chain calls self) = height self ∧
  ffmpeg_path (chain calls self) = ffmpeg_path self.
Proof.
  revert self. induction calls as [|c calls IH]; intros self; [done|].
  rewrite chain_cons. destruct (IH (perform c self)) as (-> & -> & ->).
  by destruct c.
Qed.

(** X10.  The order of the calls does not matter when no attribute is assigned
    twice: the builder in the end is the same, and so is what
    [build_command] makes of it. *)
Theorem chain_order_irrelevant calls1 calls2 self :
  NoDup (assigns <$> calls1) → calls1 ≡ₚ calls2 →
  chain calls1 self = chain calls2 self.
Proof.
  intros Hnd Hperm. revert self Hnd.
  induction Hperm as [|c l l' Hp IH|c1 c2 l|l l' l'' Hp1 IH1 Hp2 IH2]; intros self Hnd.
  - done.
  - rewrite !chain_cons. apply IH. by apply NoDup_cons in Hnd as [_ ?].
  - rewrite !chain_cons. f_equal. apply perform_swap.
    cbn in Hnd. apply NoDup_cons in Hnd as [Hin _].
    intros Heq. apply Hin. rewrite Heq. by left.
  - rewrite IH1 by done. apply IH2. by rewrite <- Hp1.
Qed.

(** A call that is overwritten at the end of a chain, and that no call in
    between depends on, can be dropped. *)
Lemma chain_drop_overwritten kept c' c self :
  Forall (λ k, assigns k ≠ assigns c') kept → assigns c' = assigns c →
  chain (kept ++ [c]) (perform c' self) = chain (kept ++ [c]) self.
Proof.
  intros Hkept Heq. revert self.
  induction Hkept as [|k kept Hk _ IH]; intros self.
  - cbn. by apply perform_overwrite.
  - cbn [app]. rewrite !chain_cons.
    rewrite (perform_swap k c' self) by done. apply IH.
Qed.

(** X11.  A call supersedes every earlier call on the same attribute: those
    can be dropped from the chain.  In particular a second [set_captions]
    keeps nothing of the first record, and a background setter replaces
    the background of the other kind. *)
Theorem chain_last_call_wins calls c self :
  chain (calls ++ [c]) self =
  chain (List.filter (λ c', negb (attribute_eqb (assigns c') (assigns c))) calls ++ [c]) self.
Proof.
  revert self. induction calls as [|c' calls IH]; intros self; [done|].
  cbn [app List.filter]. rewrite chain_cons, IH.
  destruct (attribute_eqb (assigns c') (assigns c)) eqn:E; cbn [negb].
  - apply attribute_eqb_eq in E. apply chain_drop_overwritten; [|done].
    apply Forall_forall. intros k Hk%list_elem_of_In%filter_In.
    destruct Hk as [_ Hk]. apply negb_true_iff in Hk.
    intros Heq. rewrite Heq, <- E in Hk.
    by rewrite (proj2 (attribute_eqb_eq _ _) eq_refl) in Hk.
  - cbn [app]. by rewrite chain_cons.
Qed.

(** Audio then video, or video then audio. *)
Lemma chain_order_irrelevant_witness :
  chain [SetAudio "voice.mp3"; SetBackgroundVideo "clip.mp4"] (fresh (PyInt 1280) (PyInt 720)) =
  chain [SetBackgroundVideo "clip.mp4"; SetAudio "voice.mp3"] (fresh (PyInt 1280) (PyInt 720)).
Proof.
  apply (chain_order_irrelevant
           [SetAudio "voice.mp3"; SetBackgroundVideo "clip.mp4"]
           [SetBackgroundVideo "clip.mp4"; SetAudio "voice.mp3"]).
  - cbn. apply NoDup_cons. split; [|apply NoDup_singleton].
    intros H%list_elem_of_singleton. discriminate.
  - apply perm_swap.
Defined.

(** A dictionary with an entry is true. *)
Lemma truthy_dict_lookup {V} (d : gmap string V) k : is_Some (d !! k) → truthy d = true.
Proof.
  intros [v Hv]. destruct (truthy d) eqn:E; [done|].
  apply truthy_dict_false in E. by rewrite E in Hv.
Qed.

(** [set_captions] always leaves a record with an entry for ["file"]. *)
Lemma set_captions_has_file file_path config self :
  ∃ m, captions (set_captions file_path config self) = Some m ∧ is_Some (m !! "file").
Proof.
  eexists. split; [reflexivity|].
  apply lookup_union_is_Some. right. rewrite lookup_singleton_eq. by eexists.
Qed.

(** X12.  On every builder reached from the constructor through setter calls,
    the caption record is either [None] or a dictionary with an entry for
    ["file"], hence a true one: the emptiness test of the second
    validation check and the [is None] test of the fourth agree, and once
    [set_captions] has been called captions count as provided, even when
    called with no file and no configuration. *)
Theorem reachable_captions dimensions path self calls :
  init dimensions path = Ok self →
  match captions (chain calls self) with
  | None => Forall (λ c, assigns c ≠ CaptionsAttr) calls
  | Some m => is_Some (m !! "file") ∧ truthy m = true ∧
              Exists (λ c, assigns c = CaptionsAttr) calls
  end ∧
  unset (captions (chain calls self)) = is_none (captions (chain calls self)).
Proof.
  intros Hinit.
  assert (captions self = None) as Hnone.
  { destruct dimensions as [|[|w [|h [|]]]|]; try discriminate. by injection Hinit as <-. }
  clear Hinit.
  assert (match captions (chain calls self) with
          | None => Forall (λ c, assigns c ≠ CaptionsAttr) calls
          | Some m => is_Some (m !! "file") ∧ truthy m = true ∧
                      Exists (λ c, assigns c = CaptionsAttr) calls
          end) as Hinv.
  { induction calls as [|c calls IH] using rev_ind.
    - cbn. by rewrite Hnone.
    - rewrite chain_app. cbn [chain foldl]. fold (chain calls self).
      destruct c; cbn [perform]; cbn [captions set_media_utils set_background_image
        set_background_video set_background set_audio set_output_path];
        try (destruct (captions (chain calls self)) as [m|];
             [destruct IH as (? & ? & ?); split_and!; [done..|];
              apply Exists_app; by left
             |apply Forall_app; split; [done|]; by repeat constructor]).
      destruct (set_captions_has_file file_path config (chain calls self))
        as (m & -> & Hm).
      split_and!; [done|by eapply truthy_dict_lookup|].
      apply Exists_app. right. by constructor. }
  split; [done|].
  unfold unset. destruct (captions (chain calls self)) as [m|]; [|done].
  cbn. destruct Hinv as (_ & -> & _). done.
Qed.

Lemma reachable_captions_witness :
  (is_Some (({[ "file" := PyNone ]} : gmap string scalar) !! "file") ∧
   truthy ({[ "file" := PyNone ]} : gmap string scalar) = true ∧
   Exists (λ c, assigns c = CaptionsAttr) [SetBackgroundVideo "clip.mp4"; SetCaptions PyNone None]) ∧
  unset (Some ({[ "file" := PyNone ]} : gmap string scalar)) = false.
Proof.
  exact (reachable_captions (PyTuple [PyInt 1280; PyInt 720]) "ffmpeg"
           (fresh (PyInt 1280) (PyInt 720))
           [SetBackgroundVideo "clip.mp4"; SetCaptions PyNone None] eq_refl).
Defined.

(** * Properties of [execute] *)

Section Execute.

Variable float_str : spec_float → string.
Variable get_video_info : MediaUtils → string → result media_info.
Variable execute_ffmpeg_command :
  MediaUtils → list string → string → option spec_float → bool → result bool.

(** X13.  [execute] answers [True] exactly when an inspector is attached, the
    command is built, the expected duration is obtained without an
    exception, and the encoder, given that command, answers [True].  So a
    builder without an inspector is never executed, not even a silent
    video that [build_command] builds without one. *)
Theorem execute_succeeds_iff self :
  (execute float_str get_video_info execute_ffmpeg_command self).2 = true ↔
  ∃ mu cmd expected,
    media_utils self = Some mu ∧
    build_command float_str self = Ok cmd ∧
    expected_duration get_video_info self mu = Ok expected ∧
    execute_ffmpeg_command mu cmd "build video" expected true = Ok true.
Proof.
  unfold execute. split.
  - destruct (media_utils self) as [mu|] eqn:Hmu; [|done].
    destruct (build_command float_str self) as [cmd|] eqn:Hcmd; [|done].
    destruct (expected_duration _ _ _) as [expected|] eqn:Hexp; [|done].
    destruct (execute_ffmpeg_command _ _ _ _ _) as [[]|] eqn:Hrun; [|done..].
    intros _. by exists mu, cmd, expected.
  - intros (mu & cmd & expected & -> & -> & -> & ->). done.
Qed.

(** X14.  The encoder is run at most once, with the command [build_command]
    returned, the label [build video], the expected duration and progress
    display on; and it is not run at all without an inspector, when
    [build_command] raises, or when the expected duration cannot be
    obtained. *)
Theorem execute_runs_encoder_once self :
  runs (execute float_str get_video_info execute_ffmpeg_command self).1 =
  match media_utils self with
  | Some mu =>
      match build_command float_str self, expected_duration get_video_info self mu with
      | Ok cmd, Ok expected => [Run cmd "build video" expected true]
      | _, _ => []
      end
  | None => []
  end.
Proof.
  unfold execute.
  destruct (media_utils self) as [mu|]; [|done].
  destruct (build_command float_str self) as [cmd|]; [|done].
  destruct (expected_duration _ _ _) as [expected|]; [|done].
  by destruct (execute_ffmpeg_command _ _ _ _ _) as [[]|].
Qed.

(** X15.  Every call ends with one log record that tells the outcome: [INFO]
    when [True] is returned and [ERROR] otherwise.  An exception raised by
    [build_command] is swallowed, and the last record carries its message
    under [error]. *)
Theorem execute_logs_outcome self :
  (∃ context fields message,
     last (execute float_str get_video_info execute_ffmpeg_command self).1 =
     Some (Log (if (execute float_str get_video_info execute_ffmpeg_command self).2
                then INFO else ERROR) context fields message)) ∧
  (∀ mu e, media_utils self = Some mu → build_command float_str self = Raise e →
     (execute float_str get_video_info execute_ffmpeg_command self).2 = false ∧
     ∃ context,
       last (execute float_str get_video_info execute_ffmpeg_command self).1 =
       Some (Log ERROR context [("error", PyStr (str_exn e))]
               "error during video rendering")).
Proof.
  unfold execute. split.
  - destruct (media_utils self) as [mu|]; [|by eexists _, _, _].
    destruct (build_command float_str self) as [cmd|]; [|by eexists _, _, _].
    destruct (expected_duration _ _ _) as [expected|]; [|by eexists _, _, _].
    by destruct (execute_ffmpeg_command _ _ _ _ _) as [[]|]; eexists _, _, _.
  - intros mu e -> ->. split; [done|]. by eexists.
Qed.

End Execute.

(** X16.  When there is an audio file, the expected duration handed to the
    encoder is the duration the inspector reports for it -- the one the
    command ends with, after [-t] -- and the video inspection is not
    consulted. *)
Theorem expected_duration_with_audio float_str get_video_info self mu cmd :
  media_utils self = Some mu →
  build_command float_str self = Ok cmd →
  truthy (audio_file self) = true →
  ∃ d front,
    expected_duration get_video_info self mu = Ok (Some d) ∧ truthy d = true ∧
    cmd = front ++ ["-t"; float_str d; output_path self] ∧
    ∀ get_video_info', expected_duration get_video_info' self mu = Ok (Some d).
Proof.
  intros Hmu Hcmd Haudio.
  assert (∃ a mu' d, audio_file self = Some a ∧ media_utils self = Some mu' ∧
            duration (get_audio_info mu' a) = Some d ∧ truthy d = true ∧
            cmd = take 28 cmd ++ ["-t"; float_str d; output_path self])
    as (a & mu' & d & Ha & Hmu' & Hd & Htd & Hfront).
  { destruct (background self) as [[file kb|file]|] eqn:Hbg.
    - destruct (image_command_inv float_str _ _ _ _ Hbg Hcmd)
        as (a & mu' & d & n & Ha & Ht & Hmu' & Hd & Htd & Hn).
      rewrite (image_command float_str _ _ _ _ _ _ _ Hbg Ha Ht Hmu' Hd Htd Hn) in Hcmd.
      injection Hcmd as <-. by exists a, mu', d.
    - destruct (video_command_inv float_str _ _ _ Hbg Hcmd)
        as [(a & mu' & d & Ha & Ht & Hmu' & Hd & Htd)|[Ha _]].
      + rewrite (video_command_audio float_str _ _ _ _ _ Hbg Ha Ht Hmu' Hd Htd) in Hcmd.
        injection Hcmd as <-. by exists a, mu', d.
      + unfold unset in Ha. by rewrite Haudio in Ha.
    - unfold build_command in Hcmd. by rewrite Hbg in Hcmd. }
  rewrite Hmu in Hmu'. injection Hmu' as <-.
  exists d, (take 28 cmd). unfold expected_duration. rewrite Haudio, Ha. cbn.
  by rewrite Hd.
Qed.

(** The narrated still: the encoder is told to expect ten seconds. *)
Lemma expected_duration_with_audio_witness :
  ∃ d front,
    expected_duration (video_info_of None) (narrated_still (Some ten_seconds))
      (inspector (Some ten_seconds)) = Ok (Some d) ∧
    truthy d = true ∧
    [ "ffmpeg"; "-y"; "-loop"; "1"; "-t"; "10.0"; "-i"; "bg.jpg"; "-i"; "voice.mp3";
      "-filter_complex";
      "[0]scale=1080:-2,setsar=1:1,crop=1080:1920,zoompan=z='zoom+0.001':x=0:y=0:d=251:s=1080x1920:fps=25[bg];[bg]copy[v]";
      "-map"; "[v]"; "-map"; "1:a";
      "-c:v"; "libx264"; "-preset"; "ultrafast"; "-crf"; "23"; "-pix_fmt"; "yuv420p";
      "-c:a"; "aac"; "-b:a"; "192k"; "-t"; "10.0"; "output.mp4" ] =
    front ++ ["-t"; FloatStr.float_repr d; "output.mp4"] ∧
    ∀ get_video_info',
      expected_duration get_video_info' (narrated_still (Some ten_seconds))
        (inspector (Some ten_seconds)) = Ok (Some d).
Proof.
  exact (expected_duration_with_audio FloatStr.float_repr (video_info_of None)
           (narrated_still (Some ten_seconds)) (inspector (Some ten_seconds)) _
           eq_refl narrated_still_command eq_refl).
Defined.

(** The subtitled clip is built without an inspector and not executed
    without one; with one, the encoder gets the command and the duration
    of the clip. *)
Example execute_needs_inspector :
  execute FloatStr.float_repr (video_info_of (Some ten_seconds)) (encoder_answering true)
    subtitled_clip =
  ([Log ERROR None [] "MediaUtils must be set before executing video build"], false).
Proof. reflexivity. Qed.

Example execute_subtitled_clip :
  let self := set_media_utils (inspector None) subtitled_clip in
  (execute FloatStr.float_repr (video_info_of (Some ten_seconds)) (encoder_answering true)
     self).2 = true ∧
  runs (execute FloatStr.float_repr (video_info_of (Some ten_seconds))
          (encoder_answering true) self).1 =
  [Run ["ffmpeg"; "-y"; "-i"; "clip.mp4"; "-filter_complex";
        "[0]scale=1280:720[bg];[bg]subtitles=subs.srt[v]"; "-map"; "[v]";
        "-c:v"; "libx264"; "-preset"; "ultrafast"; "-crf"; "23"; "-pix_fmt"; "yuv420p";
        "output.mp4"]
       "build video" (Some ten_seconds) true].
Proof. cbv zeta. split; vm_compute; reflexivity. Qed.
